(** * flask_fs.storage: the Storage facade

    A shallow embedding of [flask_fs/storage.py]: the configuration
    resolver ([Storage.configure]), file-type validation, the save
    pipeline and the read / write / open / copy / serve operations,
    together with the properties stated about them.

    Python strings and byte strings are Rocq [string]s (lists of bytes).
    The effective configuration (a [dict] subclass) is a [gmap]; the
    application configuration, which [configure] iterates in insertion
    order, is an association list.  Methods that raise or touch the
    backend live in a state-and-exception monad whose state holds the
    [Storage] object, the local file system and the log of backend
    calls. *)

From Stdlib Require Import String Ascii.
From stdpp Require Import base option list gmap strings pretty.

Open Scope string_scope.
Open Scope list_scope.

(** ** Python string primitives used by the module *)

Module PyStr.

Definition is_lower_ascii (c : ascii) : bool :=
  let n := nat_of_ascii c in (97 <=? n)%nat && (n <=? 122)%nat.

Definition is_upper_ascii (c : ascii) : bool :=
  let n := nat_of_ascii c in (65 <=? n)%nat && (n <=? 90)%nat.

Definition upper_ascii (c : ascii) : ascii :=
  if is_lower_ascii c then ascii_of_nat (nat_of_ascii c - 32) else c.

Definition lower_ascii (c : ascii) : ascii :=
  if is_upper_ascii c then ascii_of_nat (nat_of_ascii c + 32) else c.

Fixpoint map_chars (f : ascii -> ascii) (s : string) : string :=
  match s with
  | EmptyString => EmptyString
  | String c s' => String (f c) (map_chars f s')
  end.

(** [s.upper()] and [s.lower()], on the ASCII range. *)
Definition upper (s : string) : string := map_chars upper_ascii s.
Definition lower (s : string) : string := map_chars lower_ascii s.

(** [s.startswith(p)] *)
Fixpoint startswith (s p : string) {struct p} : bool :=
  match p, s with
  | EmptyString, _ => true
  | String a p', String b s' => if Ascii.eqb a b then startswith s' p' else false
  | String _ _, EmptyString => false
  end.

(** [p in s] for two strings: [p] occurs in [s] as a substring. *)
Fixpoint contains (s p : string) : bool :=
  match s with
  | EmptyString => startswith s p
  | String _ s' => startswith s p || contains s' p
  end.

(** [s.replace(old, "")]: every non-overlapping occurrence of [old],
    scanning from the left, is dropped.  [skip] counts the characters of
    the occurrence being dropped that are still to be passed. *)
Fixpoint remove_from (old : string) (skip : nat) (s : string) : string :=
  match s with
  | EmptyString => EmptyString
  | String c s' =>
      match skip with
      | S k => remove_from old k s'
      | O => if startswith s old
             then remove_from old (String.length old - 1) s'
             else String c (remove_from old 0 s')
      end
  end.

Definition remove_all (s old : string) : string :=
  match old with
  | EmptyString => s
  | String _ _ => remove_from old 0 s
  end.

(** [sep.join((a, b))] *)
Definition join2 (sep a b : string) : string := a +:+ sep +:+ b.

(** The double-quote character, for messages that quote a name. *)
Definition dquote : string := String (ascii_of_nat 34) EmptyString.

(** [s.rfind(".")] as a split: the text before the last dot and the text
    from the last dot on; [None] when [s] has no dot. *)
Fixpoint rsplit_dot (s : string) : option (string * string) :=
  match s with
  | EmptyString => None
  | String c s' =>
      match rsplit_dot s' with
      | Some (main, ext) => Some (String c main, ext)
      | None => if Ascii.eqb c "."%char then Some (EmptyString, s) else None
      end
  end.

End PyStr.

(** ** Values held by configuration mappings *)

Inductive pyval : Type :=
| PNone
| PBool (b : bool)
| PStr (s : string)
| PTuple (items : list string).

(** Exceptions that can leave a method of [Storage].  [BackendError],
    [EncryptorError] and [OSError] tag what the bound backend, its
    encryptor and the operating system raise; the others are raised by
    the module itself or by the interpreter on its behalf. *)
Inductive exn : Type :=
| ValueError (msg : string)
| KeyError (key : string)
| AttributeError (msg : string)
| TypeError (msg : string)
| UnboundLocalError (var : string)
| OSError (msg : string)
| HTTPException (code : nat)
| UnauthorizedFileType
| FileExists (path : option string)
| FileNotFound (path : string)
| OperationNotSupported (msg : string)
| ConfigurationError (msg : string)
| BackendError (msg : string)
| EncryptorError (msg : string).

Definition result (A : Type) : Type := exn + A.

(** Truth value of a Python string. *)
Definition truthy (s : string) : bool :=
  match s with EmptyString => false | String _ _ => true end.

(** [ext in v] where [v] is a configuration value. *)
Definition py_in (ext : string) (v : pyval) : result bool :=
  match v with
  | PTuple items => inr (bool_decide (ext ∈ items))
  | PStr s => inr (PyStr.contains s ext)
  | PNone => inl (TypeError "argument of type 'NoneType' is not iterable")
  | PBool _ => inl (TypeError "argument of type 'bool' is not iterable")
  end.

(** ** Module constants *)

Definition CONF_PREFIX : string := "FS_".
Definition PREFIX (name : string) : string := name +:+ "_FS_".
Definition BACKEND_PREFIX (name : string) : string := "FS_" +:+ name +:+ "_".
Definition BACKEND_EXCLUDED_CONFIG : list string := ["BACKEND"; "URL"; "ROOT"].

(** [DEFAULT_CONFIG]; [DEFAULTS] is the extension preset imported from
    [flask_fs.files], a tuple of extensions. *)
Definition DEFAULT_CONFIG (DEFAULTS : list string) : list (string * pyval) :=
  [("allow", PTuple DEFAULTS); ("deny", PTuple [])].

(** ** Configuration resolution: the three loops of [configure] *)

(** [dict.get] / [dict.__getitem__] on the application configuration. *)
Fixpoint app_get (key : string) (items : list (string * pyval)) : option pyval :=
  match items with
  | [] => None
  | (k, v) :: rest => if String.eqb k key then Some v else app_get key rest
  end.

Definition setdefault (key : string) (value : pyval)
    (config : gmap string pyval) : gmap string pyval :=
  match config !! key with
  | Some _ => config
  | None => <[key := value]> config
  end.

Definition set_default_values (DEFAULTS : list string)
    (config : gmap string pyval) : gmap string pyval :=
  fold_left (fun cfg kv => setdefault kv.1 kv.2 cfg) (DEFAULT_CONFIG DEFAULTS) config.

(** The name a prefixed key is stored under. *)
Definition option_name (key pfx : string) : string :=
  PyStr.lower (PyStr.remove_all key pfx).

Definition backend_level_key (backend_prefix : string) (excluded : list string)
    (key : string) : bool :=
  PyStr.startswith key backend_prefix && negb (bool_decide (key ∈ excluded)).

(** Both overlay loops have the shape
    [for key, value in app.config.items(): if selected(key): config[stored(key)] = value]. *)
Definition overlay (selected : string -> bool) (stored : string -> string)
    (items : list (string * pyval)) (config : gmap string pyval)
    : gmap string pyval :=
  fold_left
    (fun cfg kv => if selected kv.1 then <[stored kv.1 := kv.2]> cfg else cfg)
    items config.

Definition set_backend_level_values (backend_prefix : string)
    (excluded : list string) (items : list (string * pyval))
    (config : gmap string pyval) : gmap string pyval :=
  overlay (backend_level_key backend_prefix excluded)
          (fun key => option_name key backend_prefix) items config.

Definition set_storage_level_values (pfx : string)
    (items : list (string * pyval))
    (config : gmap string pyval) : gmap string pyval :=
  overlay (fun key => PyStr.startswith key pfx)
          (fun key => option_name key pfx) items config.

Definition backend_excluded_keys (backend_prefix : string) : list string :=
  map (fun k => backend_prefix +:+ k) BACKEND_EXCLUDED_CONFIG.

Definition effective_config (DEFAULTS : list string) (pfx backend_prefix : string)
    (items : list (string * pyval)) : gmap string pyval :=
  set_storage_level_values pfx items
    (set_backend_level_values backend_prefix (backend_excluded_keys backend_prefix) items
       (set_default_values DEFAULTS ∅)).

(** [key] is a storage-level key of the application configuration that
    [configure] stores under [option]. *)
Definition storage_level (pfx option key : string) : bool :=
  PyStr.startswith key pfx && String.eqb (option_name key pfx) option.

(** [key] is a backend-level key, not one of the excluded identity keys,
    that [configure] stores under [option]. *)
Definition backend_level (backend_prefix option key : string) : bool :=
  backend_level_key backend_prefix (backend_excluded_keys backend_prefix) key
  && String.eqb (option_name key backend_prefix) option.

(** ** Helpers imported from [flask_fs.files] and [werkzeug.utils] *)

Module Files.

(** The text after the last path separator. *)
Fixpoint basename (s : string) : string :=
  match s with
  | EmptyString => EmptyString
  | String c s' =>
      if PyStr.contains s' "/" then basename s'
      else if Ascii.eqb c "/"%char then s' else s
  end.

(** Modelled from the spec: [extension] of [flask_fs/files.py], which is
    not among the sources.  The extension of a file name is the text
    after the last dot of its base name, without the dot; a name with no
    dot has the empty extension. *)
Definition extension (filename : string) : string :=
  match PyStr.rsplit_dot (basename filename) with
  | Some (_, String _ ext) => ext
  | _ => EmptyString
  end.

(** Modelled from the spec: [lower_extension] of [flask_fs/files.py],
    which is not among the sources.  It lower-cases the extension only;
    the case of the base name is preserved. *)
Definition lower_extension (filename : string) : string :=
  match PyStr.rsplit_dot filename with
  | Some (main, ext) => main +:+ PyStr.lower ext
  | None => filename
  end.

Definition safe_char (c : ascii) : bool :=
  PyStr.is_lower_ascii c || PyStr.is_upper_ascii c
  || (let n := nat_of_ascii c in (48 <=? n)%nat && (n <=? 57)%nat)
  || Ascii.eqb c "_"%char || Ascii.eqb c "."%char || Ascii.eqb c "-"%char.

Fixpoint filter_chars (f : ascii -> bool) (s : string) : string :=
  match s with
  | EmptyString => EmptyString
  | String c s' => if f c then String c (filter_chars f s') else filter_chars f s'
  end.

(** Modelled from the spec: [secure_filename] of [werkzeug.utils], an
    external library.  It strips directory components and unsafe
    characters: the base name is kept, and of it the ASCII letters,
    digits, underscore, dot and dash. *)
Definition secure_filename (filename : string) : string :=
  filter_chars safe_char (basename filename).

End Files.

(** ** The local file system seen by [open], [os.remove], [os.path.isfile] *)

Record LocalFS : Type := mkLocalFS {
  files : gmap string string;   (* path |-> bytes *)
  open_fds : nat;               (* descriptors held by the process *)
  fd_limit : nat                (* descriptors the process may hold *)
}.

(** What [write] receives as [content]: an in-memory string (which may
    name a local file) or an object with a [read] method. *)
Inductive Content : Type :=
| Mem (data : string)
| Stream (data : string).

Definition content_bytes (c : Content) : string :=
  match c with Mem d => d | Stream d => d end.

(** What [save] receives as [file_or_wfs]: a file object or a werkzeug
    [FileStorage] carrying the client-declared file name. *)
Inductive Source : Type :=
| FileObj (data : string)
| FileStorage (filename : string) (data : string).

(** [prefix] and [upload_to]: a path or a callable returning one. *)
Inductive PathSpec : Type :=
| Static (path : string)
| Computed (supplier : unit -> string).

(** The encryptor attached to a backend.  [encrypt_file] writes the
    encrypted bytes to a temporary file of the local file system and
    returns its path. *)
Record Encryptor : Type := mkEncryptor {
  encrypt_content : string -> string;
  decrypt_entire_file : string -> string;
  decrypt_file_from_generator : list string -> list string;
  encrypt_file : Content -> LocalFS -> (string + string) * LocalFS
}.

(** ** The backend capability interface *)

(** An operation of a backend instance with state [B]: it may fail with a
    message and may change the instance. *)
Definition bop (B X : Type) : Type := B -> (string + X) * B.

Class Backend (B : Type) : Type := {
  b_exists : B -> string -> bool;
  b_read : string -> bop B string;
  b_read_chunks : string -> nat -> bop B (list string);
  b_open : string -> string -> bop B Content;
  b_write : string -> Content -> bop B unit;
  b_delete : string -> bop B unit;
  b_save : Source -> string -> bop B unit;
  b_copy : string -> string -> bop B unit;
  b_serve : string -> bop B string;
  b_list_files : B -> list string;
  b_root : B -> option string;
  b_encryptor : B -> option Encryptor
}.

(** Calls received by the bound backend, in order. *)
Inductive Call : Type :=
| CExists (filename : string)
| CRead (filename : string)
| CReadChunks (filename : string) (chunk_size : nat)
| COpen (filename mode : string)
| CWrite (filename : string) (content : Content)
| CDelete (filename : string)
| CSave (source : Source) (filename : string)
| CCopy (src dst : string)
| CServe (filename : string).

(** ** The [Storage] object and the world its methods run in *)

Record Storage (B : Type) : Type := mkStorage {
  name : string;
  extensions : list string;
  config : gmap string pyval;
  upload_to : option PathSpec;
  backend : option B;
  overwrite : bool;
  backend_name : option pyval;
  backend_prefix : option string
}.
Arguments mkStorage {B}.
Arguments name {B}.
Arguments extensions {B}.
Arguments config {B}.
Arguments upload_to {B}.
Arguments backend {B}.
Arguments overwrite {B}.
Arguments backend_name {B}.
Arguments backend_prefix {B}.

(** [Storage.__init__] *)
Definition init {B : Type} (name : string) (extensions : list string)
    (upload_to : option PathSpec) (overwrite : bool) : Storage B :=
  mkStorage name extensions ∅ upload_to None overwrite None None.

Record World (B : Type) : Type := mkWorld {
  self : Storage B;
  os : LocalFS;
  calls : list Call
}.
Arguments mkWorld {B}.
Arguments self {B}.
Arguments os {B}.
Arguments calls {B}.

(** ** The state-and-exception monad *)

Definition M (B A : Type) : Type := World B -> result A * World B.

Definition ret {B A : Type} (a : A) : M B A := fun w => (inr a, w).

Definition raise {B A : Type} (e : exn) : M B A := fun w => (inl e, w).

Definition bind {B A C : Type} (m : M B A) (k : A -> M B C) : M B C :=
  fun w =>
    match m w with
    | (inl e, w') => (inl e, w')
    | (inr a, w') => k a w'
    end.

Declare Scope storage_scope.
Delimit Scope storage_scope with storage.
Notation "x <- m ;; k" := (bind m (fun x => k))
  (at level 100, m at next level, right associativity) : storage_scope.
Notation "m ;;; k" := (bind m (fun _ => k))
  (at level 100, right associativity) : storage_scope.
Open Scope storage_scope.

Definition lift {B A : Type} (r : result A) : M B A := fun w => (r, w).

Definition get_self {B : Type} : M B (Storage B) := fun w => (inr (self w), w).

Definition put_self {B : Type} (s : Storage B) : M B unit :=
  fun w => (inr tt, mkWorld s (os w) (calls w)).

Definition set_backend {B : Type} (b : option B) (s : Storage B) : Storage B :=
  mkStorage (name s) (extensions s) (config s) (upload_to s) b (overwrite s)
            (backend_name s) (backend_prefix s).

Definition set_config {B : Type} (c : gmap string pyval) (s : Storage B) : Storage B :=
  mkStorage (name s) (extensions s) c (upload_to s) (backend s) (overwrite s)
            (backend_name s) (backend_prefix s).

Definition set_backend_name {B : Type} (v : pyval) (s : Storage B) : Storage B :=
  mkStorage (name s) (extensions s) (config s) (upload_to s) (backend s) (overwrite s)
            (Some v) (backend_prefix s).

Definition set_backend_prefix {B : Type} (p : string) (s : Storage B) : Storage B :=
  mkStorage (name s) (extensions s) (config s) (upload_to s) (backend s) (overwrite s)
            (backend_name s) (Some p).

Definition modify_self {B : Type} (f : Storage B -> Storage B) : M B unit :=
  fun w => (inr tt, mkWorld (f (self w)) (os w) (calls w)).

Definition no_backend : exn :=
  AttributeError "'NoneType' object has no attribute".

(** [self.backend], which is [None] until [configure] has run. *)
Definition get_backend {B : Type} : M B B :=
  fun w =>
    match backend (self w) with
    | Some b => (inr b, w)
    | None => (inl no_backend, w)
    end.

(** A call of a backend method: it is logged, runs on the instance, and
    what the backend raises is tagged [BackendError]. *)
Definition backend_call {B X : Type} (c : Call) (op : bop B X) : M B X :=
  fun w =>
    match backend (self w) with
    | None => (inl no_backend, w)
    | Some b =>
        let '(r, b') := op b in
        (match r with inl msg => inl (BackendError msg) | inr x => inr x end,
         mkWorld (set_backend (Some b') (self w)) (os w) (calls w ++ [c]))
    end.

(** A step on the local file system. *)
Definition os_step {B X : Type} (f : LocalFS -> result X * LocalFS) : M B X :=
  fun w => let '(r, fs') := f (os w) in (r, mkWorld (self w) fs' (calls w)).

(** A query of the local file system. *)
Definition os_query {B X : Type} (f : LocalFS -> X) : M B X :=
  fun w => (inr (f (os w)), w).

(** ** Local file system primitives *)

Definition isfile (path : string) (fs : LocalFS) : bool :=
  bool_decide (is_Some (files fs !! path)).

(** [open(path, "rb")]: fails when the path is absent or when the process
    has no descriptor left. *)
Definition fs_open (path : string) (fs : LocalFS) : result Content * LocalFS :=
  match files fs !! path with
  | None => (inl (OSError "ENOENT"), fs)
  | Some data =>
      if (open_fds fs <? fd_limit fs)%nat
      then (inr (Stream data), mkLocalFS (files fs) (S (open_fds fs)) (fd_limit fs))
      else (inl (OSError "EMFILE"), fs)
  end.

(** [stream.close()] *)
Definition fs_close (stream : Content) (fs : LocalFS) : result unit * LocalFS :=
  (inr tt, mkLocalFS (files fs) (Nat.pred (open_fds fs)) (fd_limit fs)).

(** [os.remove(path)] *)
Definition fs_remove (path : string) (fs : LocalFS) : result unit * LocalFS :=
  match files fs !! path with
  | None => (inl (OSError "ENOENT"), fs)
  | Some _ => (inr tt, mkLocalFS (delete path (files fs)) (open_fds fs) (fd_limit fs))
  end.

(** ** The methods of [Storage] *)

Section Facade.

Context {B : Type} `{Backend B}.

(** [DEFAULTS] of [flask_fs.files] and the registry [BACKENDS] built from
    the entry points: a backend class is applied to the storage name and
    the effective configuration. *)
Variable DEFAULTS : list string.
Variable BACKENDS : gmap string (string -> gmap string pyval -> string + B).

Definition unknown_backend (backend_name : string) : exn :=
  ValueError ("Unknown backend " +:+ PyStr.dquote +:+ backend_name +:+ PyStr.dquote).

Definition configure (app_config : list (string * pyval)) : M B unit :=
  s <- get_self ;;
  let prefix := PREFIX (PyStr.upper (name s)) in
  let backend_key := prefix +:+ "BACKEND" in
  fallback <- match app_get "FS_BACKEND" app_config with
              | Some v => ret v
              | None => raise (KeyError "FS_BACKEND")
              end ;;
  let chosen := default fallback (app_get backend_key app_config) in
  modify_self (set_backend_name chosen) ;;;
  backend_name <- match chosen with
                  | PStr n => ret n
                  | _ => raise (AttributeError "object has no attribute 'upper'")
                  end ;;
  let backend_prefix := BACKEND_PREFIX (PyStr.upper backend_name) in
  modify_self (set_backend_prefix backend_prefix) ;;;
  let config := effective_config DEFAULTS prefix backend_prefix app_config in
  match BACKENDS !! backend_name with
  | None => raise (unknown_backend backend_name)
  | Some backend_class =>
      match backend_class (name s) config with
      | inl msg => raise (BackendError msg)
      | inr b =>
          modify_self (set_backend (Some b)) ;;;
          modify_self (set_config config)
      end
  end.

(** [self.backend.exists(filename)], also [Storage.exists]. *)
Definition exists_ (filename : string) : M B bool :=
  backend_call (CExists filename) (fun b => (inr (b_exists b filename), b)).

(** [self.backend.encryptor] *)
Definition backend_encryptor : M B (option Encryptor) :=
  b <- get_backend ;; ret (b_encryptor b).

(** [Config.__getattr__] on [self.config] *)
Definition config_attr (attr : string) : M B pyval :=
  s <- get_self ;;
  match config s !! attr with
  | Some v => ret v
  | None => raise (AttributeError ("Unknown attribute: " +:+ attr))
  end.

Definition extension_allowed (ext : string) : M B bool :=
  allow <- config_attr "allow" ;;
  in_allow <- lift (py_in ext allow) ;;
  if in_allow : bool then ret true
  else
    s <- get_self ;;
    if bool_decide (ext ∈ extensions s)
    then deny <- config_attr "deny" ;;
         in_deny <- lift (py_in ext deny) ;;
         ret (negb in_deny)
    else ret false.

Definition file_allowed (storage : Source) (basename : string) : M B bool :=
  extension_allowed (Files.extension basename).

Definition read (filename : string) : M B string :=
  found <- exists_ filename ;;
  if negb found then raise (FileNotFound filename)
  else
    readed_content <- backend_call (CRead filename) (b_read filename) ;;
    enc <- backend_encryptor ;;
    match enc with
    | Some e => ret (decrypt_entire_file e readed_content)
    | None => ret readed_content
    end.

Definition read_chunks (filename : string) (chunk_size : nat) : M B (list string) :=
  found <- exists_ filename ;;
  if negb found then raise (FileNotFound filename)
  else
    generator <- backend_call (CReadChunks filename chunk_size)
                              (b_read_chunks filename chunk_size) ;;
    enc <- backend_encryptor ;;
    match enc with
    | Some e => ret (decrypt_file_from_generator e generator)
    | None => ret generator
    end.

Definition open (filename mode : string) : M B Content :=
  missing <- (if PyStr.contains mode "r"
              then found <- exists_ filename ;; ret (negb found)
              else ret false) ;;
  if missing : bool then raise (FileNotFound filename)
  else backend_call (COpen filename mode) (b_open filename mode).

Definition backend_write (filename : string) (content : Content) : M B unit :=
  backend_call (CWrite filename content) (b_write filename content).

(** The [finally] block of [write]: [read_stream] is unbound when
    [open] itself raised. *)
Definition write_finally (encrypted_content_path : string)
    (read_stream : option Content) : M B unit :=
  match read_stream with
  | None => raise (UnboundLocalError "read_stream")
  | Some stream => os_step (fs_close stream)
  end ;;;
  os_step (fs_remove encrypted_content_path).

(** [try: x = acquire; return body(x)  finally: cleanup]: the cleanup
    runs on every exit, and what it raises replaces the pending result. *)
Definition try_finally {R A : Type} (acquire : M B R) (body : R -> M B A)
    (cleanup : option R -> M B unit) : M B A :=
  fun w =>
    match acquire w with
    | (inl e, w1) =>
        match cleanup None w1 with
        | (inl e', w2) => (inl e', w2)
        | (inr _, w2) => (inl e, w2)
        end
    | (inr r, w1) =>
        let '(res, w2) := body r w1 in
        match cleanup (Some r) w2 with
        | (inl e', w3) => (inl e', w3)
        | (inr _, w3) => (res, w3)
        end
    end.

(** [hasattr(content, "read") or os.path.isfile(content)] *)
Definition from_file (content : Content) (fs : LocalFS) : bool :=
  match content with
  | Stream _ => true
  | Mem path => isfile path fs
  end.

(** [self.backend.encryptor.encrypt_file(content)] *)
Definition encrypt_to_file (e : Encryptor) (content : Content) : M B string :=
  os_step (fun fs =>
             let '(r, fs') := encrypt_file e content fs in
             (match r with
              | inl msg => inl (EncryptorError msg)
              | inr path => inr path
              end, fs')).

(** The file branch of [write]: the content goes through a temporary
    encrypted file that is opened, written to the backend, closed and
    removed. *)
Definition write_encrypted_file (e : Encryptor) (filename : string)
    (content : Content) : M B unit :=
  encrypted_content_path <- encrypt_to_file e content ;;
  try_finally (os_step (fs_open encrypted_content_path))
              (fun read_stream => backend_write filename read_stream)
              (write_finally encrypted_content_path).

(** The body of [write] below the overwrite guard: the dispatch on the
    encryptor and on the kind of content. *)
Definition write_content (filename : string) (content : Content) : M B unit :=
  enc <- backend_encryptor ;;
  match enc with
  | Some e =>
      is_file <- os_query (from_file content) ;;
      if is_file : bool then write_encrypted_file e filename content
      else backend_write filename (Mem (encrypt_content e (content_bytes content)))
  | None => backend_write filename content
  end.

Definition write (filename : string) (content : Content) (overwrite_arg : bool)
    : M B unit :=
  s <- get_self ;;
  conflict <- (if negb (overwrite s) && negb overwrite_arg
               then exists_ filename else ret false) ;;
  if conflict : bool then raise (FileExists None)
  else write_content filename content.

Definition delete_ (filename : string) : M B unit :=
  backend_call (CDelete filename) (b_delete filename).

Definition given (p : option PathSpec) : bool :=
  match p with
  | None => false
  | Some (Static path) => truthy path
  | Some (Computed _) => true
  end.

Definition resolve (p : option PathSpec) : string :=
  match p with
  | None => EmptyString
  | Some (Static path) => path
  | Some (Computed supplier) => supplier tt
  end.

Definition save (file_or_wfs : Source) (filename : option string)
    (prefix : option PathSpec) (overwrite_arg : option bool) : M B string :=
  let filename := default EmptyString filename in
  let filename :=
    match file_or_wfs with
    | FileStorage client_name _ =>
        if negb (truthy filename)
        then Files.lower_extension (Files.secure_filename client_name)
        else filename
    | FileObj _ => filename
    end in
  if negb (truthy filename) then raise (ValueError "filename is required")
  else
    allowed <- file_allowed file_or_wfs filename ;;
    if negb allowed then raise UnauthorizedFileType
    else
      let filename :=
        if given prefix then PyStr.join2 "/" (resolve prefix) filename
        else filename in
      s <- get_self ;;
      let filename :=
        if given (upload_to s) then PyStr.join2 "/" (resolve (upload_to s)) filename
        else filename in
      let overwrite_now := default (overwrite s) overwrite_arg in
      conflict <- (if negb overwrite_now then exists_ filename else ret false) ;;
      if conflict : bool then raise (FileExists (Some filename))
      else
        backend_call (CSave file_or_wfs filename) (b_save file_or_wfs filename) ;;;
        ret filename.

Definition serve (filename : string) : M B string :=
  found <- exists_ filename ;;
  if negb found then raise (HTTPException 404)
  else backend_call (CServe filename) (b_serve filename).

Definition copy (src dst : string) : M B unit :=
  found <- exists_ src ;;
  if negb found then raise (FileNotFound src)
  else backend_call (CCopy src dst) (b_copy src dst).

End Facade.

(** ** Paths and URLs *)

(** Truth value of a configuration value. *)
Definition py_truthy (v : pyval) : bool :=
  match v with
  | PNone => false
  | PBool b => b
  | PStr s => truthy s
  | PTuple items => match items with [] => false | _ :: _ => true end
  end.

(** [s.endswith(p)] *)
Fixpoint endswith (s p : string) : bool :=
  String.eqb s p
  || match s with
     | EmptyString => false
     | String _ s' => endswith s' p
     end.

(** [s[1:]] *)
Definition drop_first (s : string) : string :=
  match s with
  | EmptyString => EmptyString
  | String _ s' => s'
  end.

(** [os.path.join(a, b)] of [posixpath], for two components. *)
Definition os_path_join (a b : string) : string :=
  if PyStr.startswith b "/" then b
  else if negb (truthy a) || endswith a "/" then a +:+ b
  else a +:+ "/" +:+ b.

(** [Storage._clean_url]; [is_secure] is [request.is_secure]. *)
Definition _clean_url (is_secure : bool) (url : string) : string :=
  let url :=
    if negb (PyStr.startswith url "http://") && negb (PyStr.startswith url "https://")
    then (if is_secure then "https://" else "http://") +:+ url
    else url in
  if negb (endswith url "/") then url +:+ "/" else url.

(** [os.path.splitext] of [posixpath]: the extension starts at the last
    dot of the last path component, leading dots of the component
    excepted. *)
Module SplitExt.

(** The text through the last separator, and the last component. *)
Fixpoint split_dir (p : string) : string * string :=
  match p with
  | EmptyString => (EmptyString, EmptyString)
  | String c p' =>
      if PyStr.contains p' "/" || Ascii.eqb c "/"%char
      then let '(dir, base) := split_dir p' in (String c dir, base)
      else (EmptyString, p)
  end.

(** The leading dots of a component, and what follows them. *)
Fixpoint leading_dots (s : string) : string * string :=
  match s with
  | String c s' =>
      if Ascii.eqb c "."%char
      then let '(dots, rest) := leading_dots s' in (String c dots, rest)
      else (EmptyString, s)
  | EmptyString => (EmptyString, EmptyString)
  end.

Definition splitext (p : string) : string * string :=
  let '(dir, base) := split_dir p in
  let '(dots, rest) := leading_dots base in
  match PyStr.rsplit_dot rest with
  | Some (main, ext) => (dir +:+ dots +:+ main, ext)
  | None => (p, EmptyString)
  end.

End SplitExt.

(** [os.path.exists(path)]: in this file system every path is a file. *)
Definition path_exists (path : string) (fs : LocalFS) : bool :=
  bool_decide (is_Some (files fs !! path)).

(** ** Further methods of [Storage] *)

Section Locations.

Context {B : Type} `{Backend B}.

(** The ambient Flask context and the external helpers: [request.is_secure],
    [current_app.config], [url_for("fs.get_file", fs=..., filename=...,
    _external=...)], [urllib.parse.urljoin], the [metadata] method of the
    bound backend and the name of its class. *)
Variable is_secure : bool.
Variable current_config : list (string * pyval).
Variable url_for : string -> string -> bool -> result string.
Variable urljoin : pyval -> string -> result string.
Variable b_metadata : string -> bop B (gmap string pyval).
Variable class_name : B -> string.

(** [self._clean_url(value)] on a configuration value. *)
Definition clean_value (value : pyval) : M B string :=
  match value with
  | PStr url => ret (_clean_url is_secure url)
  | _ => raise (AttributeError "object has no attribute 'startswith'")
  end.

Definition base_url : M B string :=
  s <- get_self ;;
  let config_value := default PNone (config s !! "url") in
  if py_truthy config_value then clean_value config_value
  else
    let default_url := default PNone (app_get "FS_URL" current_config) in
    backend_prefix <- match backend_prefix s with
                      | Some p => ret p
                      | None => raise (AttributeError
                                         "'Storage' object has no attribute 'backend_prefix'")
                      end ;;
    let default_url :=
      default default_url (app_get (backend_prefix +:+ "URL") current_config) in
    if py_truthy default_url then
      url <- lift (urljoin default_url (name s)) ;;
      ret (_clean_url is_secure url)
    else lift (url_for (name s) EmptyString true).

Definition has_url : M B bool :=
  s <- get_self ;;
  let config_value := default PNone (config s !! "url") in
  ret (if py_truthy config_value then true
       else py_truthy (default PNone (app_get "FS_URL" current_config))).

Definition url (filename : string) (external : bool) : M B string :=
  let filename :=
    if PyStr.startswith filename "/" then drop_first filename else filename in
  with_base <- has_url ;;
  if with_base : bool then
    base <- base_url ;;
    ret (base +:+ filename)
  else
    s <- get_self ;;
    lift (url_for (name s) filename external).

Definition path (filename : string) : M B string :=
  b <- get_backend ;;
  let root := default EmptyString (b_root b) in
  if negb (truthy root) then
    raise (OperationNotSupported
             ("Direct file access is not supported by " +:+ class_name b))
  else ret (os_path_join root filename).

(** [self.backend.list_files()] *)
Definition list_files : M B (list string) :=
  b <- get_backend ;; ret (b_list_files b).

(** [self.backend.metadata(filename)]: the instance may change and what it
    raises is tagged like the other backend errors. *)
Definition backend_metadata (filename : string) : M B (gmap string pyval) :=
  fun w =>
    match backend (self w) with
    | None => (inl no_backend, w)
    | Some b =>
        let '(r, b') := b_metadata filename b in
        (match r with inl msg => inl (BackendError msg) | inr x => inr x end,
         mkWorld (set_backend (Some b') (self w)) (os w) (calls w))
    end.

Definition metadata (filename : string) : M B (gmap string pyval) :=
  metadata <- backend_metadata filename ;;
  let metadata := <["filename" := PStr (Files.basename filename)]> metadata in
  link <- url filename true ;;
  ret (<["url" := PStr link]> metadata).

(** [Storage.__contains__] *)
Definition contains_ (value : string) : M B bool := exists_ value.

(** The candidate of [resolve_conflict] for a count. *)
Definition numbered (stem ext : string) (count : nat) : string :=
  stem +:+ "_" +:+ pretty count +:+ ext.

(** The [while True] loop of [resolve_conflict], for at most [fuel] turns;
    [count] is the value of the counter when the turn starts. *)
Fixpoint resolve_conflict_loop (fuel : nat) (fs : LocalFS)
    (target_folder stem ext : string) (count : nat) : option string :=
  match fuel with
  | O => None
  | S fuel' =>
      let count := S count in
      let newname := numbered stem ext count in
      if negb (path_exists (os_path_join target_folder newname) fs)
      then Some newname
      else resolve_conflict_loop fuel' fs target_folder stem ext count
  end.

Definition resolve_conflict (fuel : nat) (target_folder basename : string)
    : M B (option string) :=
  let '(stem, ext) := SplitExt.splitext basename in
  os_query (fun fs => resolve_conflict_loop fuel fs target_folder stem ext 0).

End Locations.

(** ** A reference in-memory backend and encryptor

    The smallest implementation of the capability interface: a mapping
    from paths to bytes.  The properties below are stated for every
    backend; this one instantiates them on concrete runs. *)

Module MemoryBackend.

Record t : Type := mk {
  store : gmap string string;
  encryptor : option Encryptor;
  read_only : bool
}.

Definition fetch {X : Type} (f : string -> X) (filename : string) : bop t X :=
  fun st =>
    (match store st !! filename with
     | Some data => inr (f data)
     | None => inl "no such file"
     end, st).

Definition put (filename data : string) : bop t unit :=
  fun st =>
    if read_only st then (inl "read-only storage", st)
    else (inr tt, mk (<[filename := data]> (store st)) (encryptor st) (read_only st)).

Definition source_bytes (source : Source) : string :=
  match source with FileObj data => data | FileStorage _ data => data end.

#[export] Instance capabilities : Backend t := {|
  b_exists st filename := bool_decide (is_Some (store st !! filename));
  b_read filename := fetch id filename;
  b_read_chunks filename chunk_size := fetch (fun data => [data]) filename;
  b_open filename mode := fetch Stream filename;
  b_write filename content := put filename (content_bytes content);
  b_delete filename st :=
    (inr tt, mk (delete filename (store st)) (encryptor st) (read_only st));
  b_save source filename := put filename (source_bytes source);
  b_copy src dst st :=
    match store st !! src with
    | Some data => put dst data st
    | None => (inl "no such file", st)
    end;
  b_serve filename := fetch id filename;
  b_list_files st := (map_to_list (store st)).*1;
  b_root st := None;
  b_encryptor := encryptor
|}.

(** The class registered for the backend: it starts empty. *)
Definition class (enc : option Encryptor) (storage_name : string)
    (config : gmap string pyval) : string + t :=
  inr (mk ∅ enc false).

End MemoryBackend.

Module FlipEncryptor.

Definition flip (c : ascii) : ascii :=
  match c with
  | Ascii b0 b1 b2 b3 b4 b5 b6 b7 => Ascii (negb b0) b1 b2 b3 b4 b5 b6 b7
  end.

Definition crypt (data : string) : string := PyStr.map_chars flip data.

Definition temp_path : string := "/tmp/encrypted".

Definition to_temp_file (content : Content) (fs : LocalFS)
    : (string + string) * LocalFS :=
  let plain :=
    match content with
    | Stream data => Some data
    | Mem path => files fs !! path
    end in
  match plain with
  | Some data =>
      (inr temp_path,
       mkLocalFS (<[temp_path := crypt data]> (files fs)) (open_fds fs) (fd_limit fs))
  | None => (inl "no such file", fs)
  end.

Definition encryptor : Encryptor :=
  mkEncryptor crypt crypt (map crypt) to_temp_file.

End FlipEncryptor.

(** ** Vocabulary of the statements *)

Section Vocabulary.

Context {B : Type} `{Backend B}.

(** The allow / declared / deny formula. *)
Definition allowed_by (allow declared deny : list string) (ext : string) : bool :=
  bool_decide (ext ∈ allow)
  || (bool_decide (ext ∈ declared) && negb (bool_decide (ext ∈ deny))).


(** The rejections of the save pipeline: no file name, a refused
    extension, an existing file that may not be overwritten. *)
Definition rejection (e : exn) : Prop :=
  e = ValueError "filename is required"
  \/ e = UnauthorizedFileType
  \/ exists path, e = FileExists (Some path).

(** The bytes [write] is asked to store when an encryptor is configured:
    those of the stream, those of the local file the string names, or
    the string itself. *)
Definition plaintext (content : Content) (fs : LocalFS) : string :=
  match content with
  | Stream data => data
  | Mem data => default data (files fs !! data)
  end.

(** Decryption is a left inverse of both encryption entry points. *)
Definition decrypts (e : Encryptor) : Prop :=
  (forall data, decrypt_entire_file e (encrypt_content e data) = data)
  /\ (forall content fs path fs',
        from_file content fs = true ->
        encrypt_file e content fs = (inr path, fs') ->
        exists cipher,
          files fs' !! path = Some cipher
          /\ decrypt_entire_file e cipher = plaintext content fs).

(** The backend returns what it was given to store, and the encryptor
    attached to it is the same when the file is read back. *)
Definition stores_faithfully : Prop :=
  forall (b b' : B) filename content,
    b_write filename content b = (inr tt, b') ->
    b_exists b' filename = true
    /\ (b_read filename b').1 = inr (content_bytes content)
    /\ b_encryptor (b_read filename b').2 = b_encryptor b.

(** The key a storage reads its backend name from. *)
Definition backend_key (w : World B) : string :=
  PREFIX (PyStr.upper (name (self w))) +:+ "BACKEND".

End Vocabulary.

(** The file name [url] appends: one leading slash is dropped. *)
Definition relative (filename : string) : string :=
  if PyStr.startswith filename "/" then drop_first filename else filename.

(** The path [save] stores a file name under: the prefix is prepended
    first, then the upload destination of the storage. *)
Definition stored_path {B : Type} (s : Storage B) (prefix : option PathSpec)
    (filename : string) : string :=
  let filename :=
    if given prefix then resolve prefix +:+ "/" +:+ filename else filename in
  if given (upload_to s) then resolve (upload_to s) +:+ "/" +:+ filename
  else filename.

(** ** Concrete storages *)

Module Examples.

Import MemoryBackend.

Definition sample_defaults : list string := ["txt"; "pdf"; "png"].

Definition registry (enc : option Encryptor)
    : gmap string (string -> gmap string pyval -> string + MemoryBackend.t) :=
  {[ "mem" := MemoryBackend.class enc ]}.

Definition local_disk : LocalFS := mkLocalFS ∅ 0 8.

(** A storage as [Storage("files", extensions)] builds it, in a process
    with a few free descriptors. *)
Definition fresh (storage_name : string) (declared : list string)
    : World MemoryBackend.t :=
  mkWorld (init storage_name declared None false) local_disk [].

Definition configured (enc : option Encryptor) (declared : list string)
    (app_config : list (string * pyval)) : World MemoryBackend.t :=
  (configure sample_defaults (registry enc) app_config (fresh "files" declared)).2.

(** allow [()], declared [{"png"}], deny [("png",)] *)
Definition png_denied_config : list (string * pyval) :=
  [("FS_BACKEND", PStr "mem");
   ("FILES_FS_ALLOW", PTuple []);
   ("FILES_FS_DENY", PTuple ["png"])].

Definition png_denied : World MemoryBackend.t :=
  configured None ["png"] png_denied_config.

(** One option at the three levels, one at two, and an identity key. *)
Definition layered_config : list (string * pyval) :=
  [("FS_BACKEND", PStr "mem");
   ("FS_MEM_ALLOW", PTuple ["b"]);
   ("FILES_FS_ALLOW", PTuple ["a"]);
   ("FS_MEM_URL", PStr "http://cdn.example/");
   ("FS_MEM_DENY", PTuple ["exe"])].

(** Two storage-level keys that differ by case only. *)
Definition clashing_config : list (string * pyval) :=
  [("FS_BACKEND", PStr "mem");
   ("FILES_FS_ALLOW", PTuple ["a"]);
   ("FS_MEM_ALLOW", PTuple ["b"]);
   ("FILES_FS_allow", PTuple ["c"])].

Definition clashing : World MemoryBackend.t :=
  configured None ["png"] clashing_config.

Definition layered : World MemoryBackend.t :=
  configured None ["png"] layered_config.

Definition unknown_backend_config : list (string * pyval) :=
  [("FS_BACKEND", PStr "mem"); ("FILES_FS_BACKEND", PStr "nowhere")].

Definition plain_config : list (string * pyval) := [("FS_BACKEND", PStr "mem")].

Definition documents : World MemoryBackend.t := configured None ["pdf"] plain_config.

Definition encrypted : World MemoryBackend.t :=
  configured (Some FlipEncryptor.encryptor) ["txt"] plain_config.

(** A storage that already holds a file. *)
Definition stocked : World MemoryBackend.t :=
  (write "a.txt" (Mem "hello") false documents).2.

(** The same storage in a process that has used up its descriptors. *)
Definition exhausted : World MemoryBackend.t :=
  mkWorld (self encrypted) (mkLocalFS ∅ 8 8) [].

Definition report : Source := FileStorage "Report.PDF" "%PDF-1.7".

End Examples.

(** ** A backend with a root directory, and stand-ins for the Flask context *)

Module LocalBackend.

#[local] Existing Instance MemoryBackend.capabilities.

Record t : Type := mk {
  content : MemoryBackend.t;
  root : option string
}.

Definition within {X : Type} (op : bop MemoryBackend.t X) : bop t X :=
  fun st => let '(r, inner) := op (content st) in (r, mk inner (root st)).

#[export] Instance capabilities : Backend t := {|
  b_exists st filename := b_exists (content st) filename;
  b_read filename := within (b_read filename);
  b_read_chunks filename chunk_size := within (b_read_chunks filename chunk_size);
  b_open filename mode := within (b_open filename mode);
  b_write filename data := within (b_write filename data);
  b_delete filename := within (b_delete filename);
  b_save source filename := within (b_save source filename);
  b_copy src dst := within (b_copy src dst);
  b_serve filename := within (b_serve filename);
  b_list_files st := b_list_files (content st);
  b_root := root;
  b_encryptor st := b_encryptor (content st)
|}.

End LocalBackend.

Module Fixtures.

Import MemoryBackend Examples.

(** A route builder in the manner of [url_for("fs.get_file", ...)]. *)
Definition route (fs filename : string) (external : bool) : result string :=
  inr ((if external then "http://localhost" else EmptyString)
       +:+ "/fs/" +:+ fs +:+ "/" +:+ filename).

(** A join of a base URL ending with a slash and a relative name. *)
Definition join_url (base : pyval) (relative_name : string) : result string :=
  match base with
  | PStr url => inr (url +:+ relative_name)
  | _ => inl (TypeError "Cannot mix str and non-str arguments")
  end.

(** The metadata a backend keeps, with fields of its own under the keys
    the storage sets. *)
Definition stored_metadata (filename : string)
    : bop MemoryBackend.t (gmap string pyval) :=
  MemoryBackend.fetch
    (fun data => {[ "checksum" := PStr "sha1:0"; "mime" := PStr "text/plain";
                    "filename" := PStr "as the backend names it";
                    "url" := PNone ]})
    filename.

Definition class_of (b : MemoryBackend.t) : string := "MemoryBackend".

Definition class_of_local (b : LocalBackend.t) : string := "LocalBackend".

(** An encryptor whose file entry point fails. *)
Definition failing_encryptor : Encryptor :=
  mkEncryptor FlipEncryptor.crypt FlipEncryptor.crypt (map FlipEncryptor.crypt)
              (fun _ fs => (inl "no space left on device", fs)).

Definition unencryptable : World MemoryBackend.t :=
  configured (Some failing_encryptor) ["txt"] plain_config.

(** Only the storage-level backend key is set. *)
Definition storage_backend_only : list (string * pyval) :=
  [("FILES_FS_BACKEND", PStr "mem")].

Definition narrow_config : list (string * pyval) :=
  [("FS_BACKEND", PStr "mem");
   ("FILES_FS_ALLOW", PTuple ["txt"]);
   ("FILES_FS_DENY", PTuple ["exe"; "pdf"])].

Definition wide_config : list (string * pyval) :=
  [("FS_BACKEND", PStr "mem");
   ("FILES_FS_ALLOW", PTuple ["txt"; "csv"]);
   ("FILES_FS_DENY", PTuple ["exe"])].

Definition narrow : World MemoryBackend.t := configured None ["pdf"] narrow_config.
Definition wide : World MemoryBackend.t := configured None ["pdf"] wide_config.

(** A storage that uploads to a folder. *)
Definition archive : World MemoryBackend.t :=
  (configure sample_defaults (registry None) plain_config
     (mkWorld (init "files" ["pdf"] (Some (Static "uploads")) false) local_disk [])).2.

Definition storage_url_config : list (string * pyval) :=
  [("FS_BACKEND", PStr "mem"); ("FILES_FS_URL", PStr "cdn.example/files")].

Definition published : World MemoryBackend.t :=
  configured None ["png"] storage_url_config.

Definition backend_url_config : list (string * pyval) :=
  [("FS_BACKEND", PStr "mem"); ("FS_MEM_URL", PStr "http://cdn.example/")].

Definition backend_published : World MemoryBackend.t :=
  configured None ["png"] backend_url_config.

(** A storage on a backend rooted at a directory. *)
Definition rooted : World LocalBackend.t :=
  mkWorld
    (mkStorage "files" ["png"] ∅ None
       (Some (LocalBackend.mk (MemoryBackend.mk ∅ None false) (Some "/srv/uploads")))
       false None None)
    local_disk [].

(** A storage holding a file in a folder. *)
Definition nested : World MemoryBackend.t :=
  (write "docs/a.txt" (Mem "hello") false documents).2.

(** A folder where the first two renamings of "photo.png" are taken. *)
Definition crowded : World MemoryBackend.t :=
  mkWorld (self documents)
    (mkLocalFS {[ "/srv/uploads/photo.png" := "0";
                  "/srv/uploads/photo_1.png" := "1";
                  "/srv/uploads/photo_2.png" := "2" ]} 0 8)
    [].

End Fixtures.

(** ** Facts about prefixes and the overlay loops *)

Section Resolution.

Implicit Types (s t old key option : string) (items : list (string * pyval)).
Implicit Types (config : gmap string pyval).

Lemma startswith_app s t : PyStr.startswith (s +:+ t) s = true.
Proof. induction s as [|c s IH]; simpl; [done|]. by rewrite Ascii.eqb_refl. Qed.

Lemma contains_empty t : PyStr.contains t "" = true.
Proof. by destruct t. Qed.

Lemma remove_from_skip old s t :
  PyStr.remove_from old (String.length s) (s +:+ t) = PyStr.remove_from old 0 t.
Proof. induction s as [|c s IH]; simpl; done. Qed.

Lemma remove_from_absent old t :
  PyStr.contains t old = false -> PyStr.remove_from old 0 t = t.
Proof.
  induction t as [|c t IH]; [done|].
  cbn [PyStr.contains PyStr.remove_from].
  intros [Hhere Hlater]%orb_false_iff. rewrite Hhere. by rewrite IH.
Qed.

(** Stripping a prefix with [replace] gives the rest of the key when the
    prefix does not occur in the rest. *)
Lemma remove_all_prefix old t :
  PyStr.contains t old = false -> PyStr.remove_all (old +:+ t) old = t.
Proof.
  destruct old as [|c old]; [by rewrite contains_empty|].
  intros Habsent. unfold PyStr.remove_all.
  change (String c old +:+ t) with (String c (old +:+ t)).
  cbn [PyStr.remove_from].
  change (String c (old +:+ t)) with (String c old +:+ t).
  rewrite startswith_app. cbn [String.length]. rewrite Nat.sub_1_r. simpl.
  rewrite remove_from_skip. by apply remove_from_absent.
Qed.

Lemma option_name_prefix old t :
  PyStr.contains t old = false -> option_name (old +:+ t) old = PyStr.lower t.
Proof. intros Habsent. unfold option_name. by rewrite remove_all_prefix. Qed.

Lemma append_inj s t t' : s +:+ t = s +:+ t' -> t = t'.
Proof. induction s as [|c s IH]; simpl; [done|]. intros [= Heq]. by apply IH. Qed.

Lemma app_get_elem key items v : app_get key items = Some v -> (key, v) ∈ items.
Proof.
  induction items as [|[k v0] items IH]; simpl; [done|].
  destruct (String.eqb_spec k key) as [->|Hne].
  - intros [= ->]. apply list_elem_of_here.
  - intros Hget. apply list_elem_of_further. by apply IH.
Qed.

(** The keys of a [dict] are distinct: a key has one value. *)
Lemma dict_value_unique items key v v' :
  NoDup items.*1 -> (key, v) ∈ items -> (key, v') ∈ items -> v = v'.
Proof.
  induction items as [|[k v0] items IH]; simpl; [by intros _ ?%elem_of_nil|].
  intros [Hfresh Hnodup]%NoDup_cons Hin Hin'.
  apply elem_of_cons in Hin as [Heq|Hin]; apply elem_of_cons in Hin' as [Heq'|Hin'].
  - congruence.
  - injection Heq as <- <-. exfalso. apply Hfresh.
    apply list_elem_of_fmap. by exists (key, v').
  - injection Heq' as <- <-. exfalso. apply Hfresh.
    apply list_elem_of_fmap. by exists (key, v).
  - by apply IH.
Qed.

Lemma overlay_snoc selected stored items kv config :
  overlay selected stored (items ++ [kv]) config =
    let cfg := overlay selected stored items config in
    if selected kv.1 then <[stored kv.1 := kv.2]> cfg else cfg.
Proof. unfold overlay. by rewrite fold_left_app. Qed.

(** An option no selected key is stored under keeps its earlier value. *)
Lemma overlay_miss selected stored items config option :
  (forall key v, (key, v) ∈ items -> selected key = true -> stored key <> option) ->
  overlay selected stored items config !! option = config !! option.
Proof.
  induction items as [|[k v] items IH] using rev_ind; [done|].
  intros Hmiss. rewrite overlay_snoc. simpl.
  assert (overlay selected stored items config !! option = config !! option) as Hrest.
  { apply IH. intros key v' Hin. apply (Hmiss key v'), elem_of_app. by left. }
  destruct (selected k) eqn:Hsel; [|done].
  rewrite lookup_insert_ne; [done|].
  apply (Hmiss k v); [|done]. apply elem_of_app. right. apply list_elem_of_here.
Qed.

(** An option takes the value of the selected keys stored under it,
    when they agree on it. *)
Lemma overlay_hit selected stored items config option key v :
  (key, v) ∈ items -> selected key = true -> stored key = option ->
  (forall key' v', (key', v') ∈ items -> selected key' = true ->
                   stored key' = option -> v' = v) ->
  overlay selected stored items config !! option = Some v.
Proof.
  induction items as [|[k v0] items IH] using rev_ind;
    [by intros ?%elem_of_nil|].
  intros Hin Hsel Hstored Hagree. rewrite overlay_snoc. simpl.
  destruct (selected k) eqn:Hselk.
  - destruct (decide (stored k = option)) as [Heq|Hne].
    + rewrite Heq, lookup_insert_eq. f_equal.
      apply (Hagree k v0); [|done..]. apply elem_of_app. right.
      apply list_elem_of_here.
    + rewrite lookup_insert_ne by done. apply IH; try done.
      * apply elem_of_app in Hin as [Hin|Hin]; [done|].
        apply list_elem_of_singleton in Hin as [= -> ->]. done.
      * intros key' v' Hin'. apply Hagree, elem_of_app. by left.
  - apply IH; try done.
    + apply elem_of_app in Hin as [Hin|Hin]; [done|].
      apply list_elem_of_singleton in Hin as [= -> ->]. congruence.
    + intros key' v' Hin'. apply Hagree, elem_of_app. by left.
Qed.

Lemma default_values_seeded DEFAULTS :
  set_default_values DEFAULTS ∅ =
    <["deny" := PTuple []]> (<["allow" := PTuple DEFAULTS]> ∅).
Proof.
  unfold set_default_values, setdefault. cbn [fold_left DEFAULT_CONFIG fst snd].
  rewrite lookup_empty. by rewrite lookup_insert_ne, lookup_empty.
Qed.

Lemma default_values_other DEFAULTS option :
  option <> "allow" -> option <> "deny" ->
  set_default_values DEFAULTS ∅ !! option = None.
Proof.
  intros Ha Hd. rewrite default_values_seeded.
  by rewrite !lookup_insert_ne, lookup_empty.
Qed.

(** The identity keys of the backend are not selected by the
    backend-level loop, whatever they would be stored under. *)
Lemma identity_key_not_backend_level backend_prefix option name :
  name ∈ BACKEND_EXCLUDED_CONFIG ->
  backend_level backend_prefix option (backend_prefix +:+ name) = false.
Proof.
  intros Hin. unfold backend_level, backend_level_key.
  rewrite startswith_app. simpl.
  rewrite bool_decide_eq_true_2; [done|].
  unfold backend_excluded_keys. apply list_elem_of_fmap. by exists name.
Qed.

Lemma other_key_backend_level_key backend_prefix name :
  name ∉ BACKEND_EXCLUDED_CONFIG ->
  backend_level_key backend_prefix (backend_excluded_keys backend_prefix)
    (backend_prefix +:+ name) = true.
Proof.
  intros Hout. unfold backend_level_key. rewrite startswith_app. simpl.
  rewrite bool_decide_eq_false_2; [done|].
  unfold backend_excluded_keys. intros (x & Heq & Hx)%list_elem_of_fmap.
  apply append_inj in Heq. by subst.
Qed.

Lemma startswith_char s c :
  PyStr.startswith s (String c EmptyString)
  = match s with String b _ => Ascii.eqb c b | EmptyString => false end.
Proof. destruct s as [|b s]; simpl; [done|]. by destruct (Ascii.eqb c b). Qed.

Lemma contains_app_r s t old :
  PyStr.contains t old = true -> PyStr.contains (s +:+ t) old = true.
Proof.
  intros Hin. induction s as [|c s IH]; [done|].
  change (String c s +:+ t) with (String c (s +:+ t)).
  cbn [PyStr.contains]. rewrite IH. apply orb_true_r.
Qed.

Lemma lower_ascii_underscore c :
  Ascii.eqb "_" (PyStr.lower_ascii c) = Ascii.eqb "_" c.
Proof. destruct c as [[] [] [] [] [] [] [] []]; reflexivity. Qed.

(** Lower-casing neither adds nor removes an underscore. *)
Lemma contains_lower_underscore s :
  PyStr.contains (PyStr.lower s) "_" = PyStr.contains s "_".
Proof.
  induction s as [|c s IH]; [done|].
  unfold PyStr.lower in *. cbn [PyStr.map_chars PyStr.contains].
  by rewrite !startswith_char, lower_ascii_underscore, IH.
Qed.

Lemma startswith_underscore s old :
  PyStr.startswith s old = true -> PyStr.contains old "_" = true ->
  PyStr.contains s "_" = true.
Proof.
  revert s. induction old as [|a old IH]; intros s Hstarts Hin; [done|].
  destruct s as [|b s]; [done|]. simpl in Hstarts.
  destruct (Ascii.eqb_spec a b) as [->|]; [|done].
  cbn [PyStr.contains] in *. rewrite startswith_char in *.
  apply orb_true_iff in Hin as [Hhere|Hlater]; [by rewrite Hhere|].
  rewrite (IH s Hstarts Hlater). apply orb_true_r.
Qed.

(** A string without underscore holds no occurrence of a string with one. *)
Lemma underscore_free_holds_no_prefix s old :
  PyStr.contains s "_" = false -> PyStr.contains old "_" = true ->
  PyStr.contains s old = false.
Proof.
  intros Hfree Hin. destruct (PyStr.contains s old) eqn:Hoccurs; [|done].
  rewrite <- Hfree. symmetry.
  clear Hfree. induction s as [|c s IH].
  - by apply (startswith_underscore _ old).
  - cbn [PyStr.contains] in Hoccurs.
    apply orb_true_iff in Hoccurs as [Hhere|Hlater].
    + by apply (startswith_underscore _ old).
    + cbn [PyStr.contains]. rewrite (IH Hlater). apply orb_true_r.
Qed.

Lemma PREFIX_has_underscore name : PyStr.contains (PREFIX name) "_" = true.
Proof. unfold PREFIX. by apply contains_app_r. Qed.

Lemma BACKEND_PREFIX_has_underscore name :
  PyStr.contains (BACKEND_PREFIX name) "_" = true.
Proof. unfold BACKEND_PREFIX. apply contains_app_r. by apply contains_app_r. Qed.

(** The seeded defaults are "allow" and "deny". *)
Lemma seeded_option DEFAULTS option seeded :
  set_default_values DEFAULTS ∅ !! option = Some seeded ->
  option = "allow" \/ option = "deny".
Proof.
  rewrite default_values_seeded.
  destruct (decide (option = "deny")) as [|Hdeny]; [by right|].
  destruct (decide (option = "allow")) as [|Hallow]; [by left|].
  by rewrite !lookup_insert_ne, lookup_empty.
Qed.

(** The name of a seeded default, in whatever case, holds no prefix. *)
Lemma seeded_option_holds_no_prefix DEFAULTS opt seeded pfx :
  set_default_values DEFAULTS ∅ !! PyStr.lower opt = Some seeded ->
  PyStr.contains pfx "_" = true ->
  PyStr.contains opt pfx = false.
Proof.
  intros Hseeded Hpfx. apply underscore_free_holds_no_prefix; [|done].
  rewrite <- contains_lower_underscore.
  by destruct (seeded_option _ _ _ Hseeded) as [-> | ->].
Qed.

Lemma seeded_option_is_no_identity_key DEFAULTS opt seeded :
  set_default_values DEFAULTS ∅ !! PyStr.lower opt = Some seeded ->
  opt ∉ BACKEND_EXCLUDED_CONFIG.
Proof.
  intros Hseeded Hin. unfold BACKEND_EXCLUDED_CONFIG in Hin.
  repeat (apply elem_of_cons in Hin as [->|Hin]);
    try (by destruct (seeded_option _ _ _ Hseeded)).
  by apply elem_of_nil in Hin.
Qed.

(** The last selected key stored under an option gives its value. *)
Lemma overlay_last selected stored before key v after config option :
  selected key = true -> stored key = option ->
  (forall k, k ∈ after.*1 -> selected k = true -> stored k <> option) ->
  overlay selected stored (before ++ (key, v) :: after) config !! option = Some v.
Proof.
  intros Hsel Hstored Hafter. unfold overlay. rewrite fold_left_app.
  cbn [fold_left fst snd]. rewrite Hsel, Hstored.
  match goal with
  | |- fold_left ?f after ?cfg !! _ = _ =>
      change (overlay selected stored after cfg !! option = Some v)
  end.
  rewrite overlay_miss; [apply lookup_insert_eq|].
  intros k v' Hin. apply Hafter, list_elem_of_fmap. by exists (k, v').
Qed.

(** Among the keys that satisfy a test there is a last one. *)
Lemma last_hit_split (hit : string -> bool) items :
  (exists key, key ∈ items.*1 /\ hit key = true) ->
  exists before key v after,
    items = before ++ (key, v) :: after
    /\ hit key = true
    /\ forall k, k ∈ after.*1 -> hit k = false.
Proof.
  induction items as [|[k v] items IH] using rev_ind.
  - by intros (key & Hin%elem_of_nil & _).
  - intros (key & Hin & Hhit). destruct (hit k) eqn:Hk.
    + exists items, k, v, []. repeat split; [done|].
      by intros k' Hin'%elem_of_nil.
    + destruct IH as (before & key' & v' & after & -> & Hhit' & Hafter).
      { exists key. split; [|done]. rewrite fmap_app in Hin.
        apply elem_of_app in Hin as [Hin|Hin]; [done|].
        apply list_elem_of_singleton in Hin. simpl in Hin. congruence. }
      exists before, key', v', (after ++ [(k, v)]).
      split; [by rewrite <- app_assoc|]. split; [done|].
      intros k' Hin'. rewrite fmap_app in Hin'.
      apply elem_of_app in Hin' as [Hin'|Hin']; [by apply Hafter|].
      apply list_elem_of_singleton in Hin'. simpl in Hin'. by subst.
Qed.

Lemma storage_level_spec pfx option key :
  storage_level pfx option key = true
  <-> PyStr.startswith key pfx = true /\ option_name key pfx = option.
Proof.
  unfold storage_level. rewrite andb_true_iff.
  destruct (String.eqb_spec (option_name key pfx) option); intuition congruence.
Qed.

Lemma backend_level_spec backend_prefix option key :
  backend_level backend_prefix option key = true
  <-> backend_level_key backend_prefix (backend_excluded_keys backend_prefix) key = true
      /\ option_name key backend_prefix = option.
Proof.
  unfold backend_level. rewrite andb_true_iff.
  destruct (String.eqb_spec (option_name key backend_prefix) option);
    intuition congruence.
Qed.

Section Levels.

Variables (DEFAULTS : list string) (pfx backend_prefix : string).
Variable items : list (string * pyval).
Hypothesis distinct_keys : NoDup items.*1.

Lemma storage_level_wins name v :
  app_get (pfx +:+ name) items = Some v ->
  PyStr.contains name pfx = false ->
  (forall key, key ∈ items.*1 ->
     storage_level pfx (PyStr.lower name) key = true -> key = pfx +:+ name) ->
  effective_config DEFAULTS pfx backend_prefix items !! PyStr.lower name = Some v.
Proof.
  intros Hget%app_get_elem Habsent Honly.
  apply (overlay_hit _ _ _ _ _ (pfx +:+ name) v); try done.
  - apply startswith_app.
  - by apply option_name_prefix.
  - intros key' v' Hin Hsel Hstored.
    assert (key' = pfx +:+ name) as ->.
    { apply Honly; [apply list_elem_of_fmap; by exists (key', v')|].
      unfold storage_level. rewrite Hsel, Hstored. simpl.
      apply String.eqb_refl. }
    by apply (dict_value_unique items (pfx +:+ name)).
Qed.

Lemma storage_level_silent option config :
  (forall key, key ∈ items.*1 -> storage_level pfx option key = false) ->
  set_storage_level_values pfx items config !! option = config !! option.
Proof.
  intros Hnone. apply overlay_miss. intros key v Hin Hsel Hstored.
  specialize (Hnone key). unfold storage_level in Hnone.
  rewrite Hsel, Hstored, String.eqb_refl in Hnone.
  assert (true && true = false) as HF; [|done].
  apply Hnone, list_elem_of_fmap. by exists (key, v).
Qed.

Lemma backend_level_wins name v :
  (forall key, key ∈ items.*1 ->
     storage_level pfx (PyStr.lower name) key = false) ->
  app_get (backend_prefix +:+ name) items = Some v ->
  name ∉ BACKEND_EXCLUDED_CONFIG ->
  PyStr.contains name backend_prefix = false ->
  (forall key, key ∈ items.*1 ->
     backend_level backend_prefix (PyStr.lower name) key = true ->
     key = backend_prefix +:+ name) ->
  effective_config DEFAULTS pfx backend_prefix items !! PyStr.lower name = Some v.
Proof.
  intros Hnone Hget%app_get_elem Hout Habsent Honly.
  unfold effective_config. rewrite storage_level_silent by done.
  apply (overlay_hit _ _ _ _ _ (backend_prefix +:+ name) v); try done.
  - by apply other_key_backend_level_key.
  - by apply option_name_prefix.
  - intros key' v' Hin Hsel Hstored.
    assert (key' = backend_prefix +:+ name) as ->.
    { apply Honly; [apply list_elem_of_fmap; by exists (key', v')|].
      unfold backend_level. rewrite Hsel, Hstored. simpl.
      apply String.eqb_refl. }
    by apply (dict_value_unique items (backend_prefix +:+ name)).
Qed.

Lemma default_level_remains option :
  (forall key, key ∈ items.*1 -> storage_level pfx option key = false) ->
  (forall key, key ∈ items.*1 ->
     backend_level backend_prefix option key = false) ->
  effective_config DEFAULTS pfx backend_prefix items !! option
    = set_default_values DEFAULTS ∅ !! option.
Proof.
  intros Hstorage Hbackend.
  unfold effective_config. rewrite storage_level_silent by done.
  apply overlay_miss. intros key v Hin Hsel Hstored.
  specialize (Hbackend key). unfold backend_level in Hbackend.
  rewrite Hsel, Hstored, String.eqb_refl in Hbackend.
  assert (true && true = false) as HF; [|done].
  apply Hbackend, list_elem_of_fmap. by exists (key, v).
Qed.

End Levels.

(** The last storage-level key stored under an option gives its
    effective value, whatever the other levels hold. *)
Lemma storage_level_last DEFAULTS pfx backend_prefix before key v after option :
  storage_level pfx option key = true ->
  (forall k, k ∈ after.*1 -> storage_level pfx option k = false) ->
  effective_config DEFAULTS pfx backend_prefix (before ++ (key, v) :: after)
    !! option = Some v.
Proof.
  intros [Hsel Hstored]%storage_level_spec Hafter.
  apply overlay_last; [done..|].
  intros k Hin Hk Heq. specialize (Hafter k Hin).
  assert (storage_level pfx option k = true) by by apply storage_level_spec.
  congruence.
Qed.

(** Without a storage-level key for the option, the last backend-level
    key stored under it gives the effective value. *)
Lemma backend_level_last DEFAULTS pfx backend_prefix before key v after option :
  (forall k, k ∈ (before ++ (key, v) :: after).*1 ->
     storage_level pfx option k = false) ->
  backend_level backend_prefix option key = true ->
  (forall k, k ∈ after.*1 -> backend_level backend_prefix option k = false) ->
  effective_config DEFAULTS pfx backend_prefix (before ++ (key, v) :: after)
    !! option = Some v.
Proof.
  intros Hnone [Hsel Hstored]%backend_level_spec Hafter.
  unfold effective_config. rewrite storage_level_silent by done.
  apply overlay_last; [done..|].
  intros k Hin Hk Heq. specialize (Hafter k Hin).
  assert (backend_level backend_prefix option k = true)
    by by apply backend_level_spec.
  congruence.
Qed.

End Resolution.

(** ** Reasoning about runs *)

Ltac unfold_monad :=
  unfold exists_, backend_encryptor, backend_write, get_backend, backend_call,
    config_attr, os_step, os_query, modify_self, put_self, get_self, lift, bind, ret, raise.

Section Properties.

Context {B : Type} `{Backend B}.
Variable DEFAULTS : list string.
Variable BACKENDS : gmap string (string -> gmap string pyval -> string + B).

Implicit Types (w : World B) (b : B) (filename : string).

(** The existence query logs one call and leaves the instance as it is. *)
Lemma exists_run w b filename :
  backend (self w) = Some b ->
  exists_ filename w =
    (inr (b_exists b filename),
     mkWorld (set_backend (Some b) (self w)) (os w) (calls w ++ [CExists filename])).
Proof. intros Hb. unfold_monad. rewrite Hb. reflexivity. Qed.

Lemma exists_unbound w filename :
  backend (self w) = None -> exists_ filename w = (inl no_backend, w).
Proof. intros Hb. unfold_monad. rewrite Hb. reflexivity. Qed.


Lemma backend_call_not_raised {X : Type} (c : Call) (op : bop B X) w (e : exn) :
  (forall msg, e <> BackendError msg) -> e <> no_backend ->
  (backend_call c op w).1 <> inl e.
Proof.
  intros Hbe Hnb. unfold backend_call.
  destruct (backend (self w)) as [b|]; simpl.
  - destruct (op b) as [[msg|x] b']; simpl; [|discriminate].
    intros [= <-]. by apply (Hbe msg).
  - intros [= <-]. by apply Hnb.
Qed.

Ltac after_exists Hb :=
  unfold bind; rewrite (exists_run _ _ _ Hb);
  destruct (b_exists _ _) eqn:Hex; simpl.

Ltac backend_step :=
  unfold_monad; simpl;
  repeat match goal with
    | |- context [let '(_, _) := ?op ?b in _] => destruct (op b) as [[?msg|?x] ?b']; simpl
    | |- context [match b_encryptor ?b with _ => _ end] => destruct (b_encryptor b); simpl
    end.

Ltac with_mode :=
  match goal with
  | Hmode : PyStr.contains _ _ = true |- _ => rewrite Hmode
  end.

(** C4.  [read], [read_chunks] and [open] in a mode containing "r" raise
    [FileNotFound] exactly when the backend reports that the file does
    not exist, and the backend receives the existence query first: the
    read operation is delegated only after it answered yes.  [copy]
    raises [FileNotFound] when the source does not exist and delegates
    only after the query. *)
Theorem reads_check_existence_first w b filename :
  backend (self w) = Some b ->
  (((read filename w).1 = inl (FileNotFound filename)
      <-> b_exists b filename = false)
   /\ calls (read filename w).2 =
        calls w ++ (if b_exists b filename
                    then [CExists filename; CRead filename]
                    else [CExists filename]))
  /\ (forall chunk_size,
       ((read_chunks filename chunk_size w).1 = inl (FileNotFound filename)
          <-> b_exists b filename = false)
       /\ calls (read_chunks filename chunk_size w).2 =
            calls w ++ (if b_exists b filename
                        then [CExists filename; CReadChunks filename chunk_size]
                        else [CExists filename]))
  /\ (forall mode, PyStr.contains mode "r" = true ->
       ((open filename mode w).1 = inl (FileNotFound filename)
          <-> b_exists b filename = false)
       /\ calls (open filename mode w).2 =
            calls w ++ (if b_exists b filename
                        then [CExists filename; COpen filename mode]
                        else [CExists filename]))
  /\ (forall dst,
       ((copy filename dst w).1 = inl (FileNotFound filename)
          <-> b_exists b filename = false)
       /\ calls (copy filename dst w).2 =
            calls w ++ (if b_exists b filename
                        then [CExists filename; CCopy filename dst]
                        else [CExists filename])).
Proof.
  intros Hb. repeat split.
  - unfold read. after_exists Hb; [|done]. backend_step; discriminate.
  - unfold read. after_exists Hb; [discriminate|done].
  - unfold read. after_exists Hb; [|done].
    backend_step; by rewrite <- app_assoc.
  - unfold read_chunks. after_exists Hb; [|done]. backend_step; discriminate.
  - unfold read_chunks. after_exists Hb; [discriminate|done].
  - unfold read_chunks. after_exists Hb; [|done].
    backend_step; by rewrite <- app_assoc.
  - unfold open. with_mode. after_exists Hb; [|done]. backend_step; discriminate.
  - unfold open. with_mode. after_exists Hb; [discriminate|done].
  - unfold open. with_mode. after_exists Hb; [|done].
    backend_step; by rewrite <- app_assoc.
  - unfold copy. after_exists Hb; [|done]. backend_step; discriminate.
  - unfold copy. after_exists Hb; [discriminate|done].
  - unfold copy. after_exists Hb; [|done].
    backend_step; by rewrite <- app_assoc.
Qed.

(** C10.  For a file the backend reports as absent, [serve] aborts the
    request with status 404 and raises no [FileNotFound]; the serve
    operation of the backend is invoked only when the file exists. *)
Theorem serve_aborts_with_404 w b filename :
  backend (self w) = Some b ->
  ((serve filename w).1 = inl (HTTPException 404)
     <-> b_exists b filename = false)
  /\ (forall path, (serve filename w).1 <> inl (FileNotFound path))
  /\ calls (serve filename w).2 =
       calls w ++ (if b_exists b filename
                   then [CExists filename; CServe filename]
                   else [CExists filename]).
Proof.
  intros Hb. repeat split.
  - unfold serve. after_exists Hb; [|done]. backend_step; discriminate.
  - unfold serve. after_exists Hb; [discriminate|done].
  - intros path. unfold serve. after_exists Hb; [|discriminate].
    backend_step; discriminate.
  - unfold serve. after_exists Hb; [|done].
    backend_step; by rewrite <- app_assoc.
Qed.

(** *** The file branch of [write], run to completion *)

Lemma fs_open_inv path fs read_stream fs' :
  fs_open path fs = (inr read_stream, fs') ->
  files fs !! path = Some (content_bytes read_stream)
  /\ read_stream = Stream (content_bytes read_stream)
  /\ fs' = mkLocalFS (files fs) (S (open_fds fs)) (fd_limit fs).
Proof.
  unfold fs_open. destruct (files fs !! path); [|discriminate].
  destruct (_ <? _)%nat; [|discriminate]. by intros [= <- <-].
Qed.

Lemma fs_open_fails path fs err fs' :
  fs_open path fs = (inl err, fs') -> fs' = fs.
Proof.
  unfold fs_open. destruct (files fs !! path); [|by intros [= _ <-]].
  destruct (_ <? _)%nat; [discriminate|by intros [= _ <-]].
Qed.

Lemma write_encrypted_file_opened
    w b e filename content path fs1 read_stream fs2 :
  backend (self w) = Some b ->
  encrypt_file e content (os w) = (inr path, fs1) ->
  fs_open path fs1 = (inr read_stream, fs2) ->
  write_encrypted_file e filename content w =
    (match (b_write filename read_stream b).1 with
     | inl msg => inl (BackendError msg)
     | inr x => inr x
     end,
     mkWorld (set_backend (Some (b_write filename read_stream b).2) (self w))
             (mkLocalFS (delete path (files fs1)) (open_fds fs1) (fd_limit fs1))
             (calls w ++ [CWrite filename read_stream])).
Proof.
  intros Hb Henc Hopen.
  destruct (fs_open_inv _ _ _ _ Hopen) as (Hfile & _ & ->).
  unfold write_encrypted_file, encrypt_to_file, try_finally, write_finally.
  unfold_monad. rewrite Henc. simpl. rewrite Hopen. simpl. rewrite Hb.
  destruct (b_write filename read_stream b) as [[msg|[]] b']; simpl;
    unfold fs_remove; simpl; rewrite Hfile; reflexivity.
Qed.

Lemma write_encrypted_file_not_opened
    w e filename content path fs1 err fs2 :
  encrypt_file e content (os w) = (inr path, fs1) ->
  fs_open path fs1 = (inl err, fs2) ->
  write_encrypted_file e filename content w =
    (inl (UnboundLocalError "read_stream"), mkWorld (self w) fs1 (calls w)).
Proof.
  intros Henc Hopen. pose proof (fs_open_fails _ _ _ _ Hopen) as ->.
  unfold write_encrypted_file, encrypt_to_file, try_finally, write_finally.
  unfold_monad. rewrite Henc. simpl. rewrite Hopen. reflexivity.
Qed.

Lemma write_encrypted_file_not_encrypted w e filename content msg fs1 :
  encrypt_file e content (os w) = (inl msg, fs1) ->
  write_encrypted_file e filename content w =
    (inl (EncryptorError msg), mkWorld (self w) fs1 (calls w)).
Proof.
  intros Henc. unfold write_encrypted_file, encrypt_to_file.
  unfold_monad. by rewrite Henc.
Qed.

Lemma write_content_run w b filename content :
  backend (self w) = Some b ->
  write_content filename content w =
    match b_encryptor b with
    | Some e =>
        if from_file content (os w)
        then write_encrypted_file e filename content w
        else backend_write filename
               (Mem (encrypt_content e (content_bytes content))) w
    | None => backend_write filename content w
    end.
Proof.
  intros Hb. unfold write_content, backend_encryptor, get_backend, os_query.
  unfold bind, ret. rewrite Hb.
  destruct (b_encryptor b) as [e|]; [|done].
  by destruct (from_file content (os w)).
Qed.

Lemma write_content_never_file_exists w filename content path :
  (write_content filename content w).1 <> inl (FileExists path).
Proof.
  destruct (backend (self w)) as [b|] eqn:Hb.
  2:{ unfold write_content, backend_encryptor, get_backend, bind.
      rewrite Hb. discriminate. }
  rewrite (write_content_run _ _ _ _ Hb).
  destruct (b_encryptor b) as [e|];
    [|apply backend_call_not_raised; discriminate].
  destruct (from_file content (os w));
    [|apply backend_call_not_raised; discriminate].
  destruct (encrypt_file e content (os w)) as [[msg|p] fs1] eqn:Henc.
  - by erewrite write_encrypted_file_not_encrypted by exact Henc.
  - destruct (fs_open p fs1) as [[err|rs] fs2] eqn:Hopen.
    + by erewrite write_encrypted_file_not_opened by eauto.
    + erewrite write_encrypted_file_opened by eauto. simpl.
      destruct (b_write _ _ _) as [[msg|[]] b']; discriminate.
Qed.



Lemma extension_allowed_run w allow deny ext :
  config (self w) !! "allow" = Some (PTuple allow) ->
  config (self w) !! "deny" = Some (PTuple deny) ->
  extension_allowed ext w =
    (inr (allowed_by allow (extensions (self w)) deny ext), w).
Proof.
  intros Ha Hd. unfold extension_allowed, allowed_by. unfold_monad.
  rewrite Ha. simpl. destruct (bool_decide (ext ∈ allow)); simpl; [done|].
  destruct (bool_decide (ext ∈ extensions (self w))); simpl; [|done].
  by rewrite Hd.
Qed.

(** Validation reads the configuration only: the world is unchanged,
    whatever the outcome, and it raises none of the storage errors. *)
Lemma extension_allowed_frame w ext :
  (extension_allowed ext w).2 = w
  /\ forall e, (extension_allowed ext w).1 = inl e ->
       (exists msg, e = AttributeError msg) \/ (exists msg, e = TypeError msg).
Proof.
  unfold extension_allowed. unfold_monad.
  destruct (config (self w) !! "allow") as [allow|]; simpl;
    [|split; [done|intros e [= <-]; left; eauto]].
  destruct (py_in ext allow) as [e0|[]] eqn:Hin; simpl.
  - split; [done|]. intros e [= <-]. right.
    destruct allow; simpl in Hin; try discriminate; injection Hin as <-; eauto.
  - split; [done|discriminate].
  - destruct (bool_decide (ext ∈ extensions (self w))); simpl;
      [|split; [done|discriminate]].
    destruct (config (self w) !! "deny") as [deny|]; simpl;
      [|split; [done|intros e [= <-]; left; eauto]].
    destruct (py_in ext deny) as [e0|r] eqn:Hin'; simpl; [|split; [done|discriminate]].
    split; [done|]. intros e [= <-]. right.
    destruct deny; simpl in Hin'; try discriminate; injection Hin' as <-; eauto.
Qed.

(** C1.  With an allow set and a deny set configured, [extension_allowed]
    returns true exactly for the extensions in the allow set and for
    those declared by the storage and not denied.  Hence a storage with
    allow [()], declared extensions [{"png"}] and deny [("png",)] rejects
    the name "a.png" with [UnauthorizedFileType], whether the name is
    given or declared by the client, and the world (backend, local files,
    log of backend calls) is as before the call. *)
Theorem extension_allowed_formula w allow deny :
  config (self w) !! "allow" = Some (PTuple allow) ->
  config (self w) !! "deny" = Some (PTuple deny) ->
  (forall ext, exists r,
      extension_allowed ext w = (inr r, w)
      /\ (r = true <->
          ext ∈ allow \/ (ext ∈ extensions (self w) /\ ext ∉ deny)))
  /\ (allow = [] -> extensions (self w) = ["png"] -> deny = ["png"] ->
      forall file_or_wfs prefix overwrite_arg data,
        save file_or_wfs (Some "a.png") prefix overwrite_arg w
          = (inl UnauthorizedFileType, w)
        /\ save (FileStorage "a.png" data) None prefix overwrite_arg w
          = (inl UnauthorizedFileType, w)).
Proof.
  intros Ha Hd. split.
  - intros ext. eexists. split; [by apply extension_allowed_run|].
    unfold allowed_by. rewrite orb_true_iff, andb_true_iff, negb_true_iff.
    rewrite !bool_decide_eq_true, bool_decide_eq_false. tauto.
  - intros -> Hexts -> file_or_wfs prefix overwrite_arg data.
    assert (file_allowed file_or_wfs "a.png" w = (inr false, w)) as Hno.
    { unfold file_allowed. rewrite (extension_allowed_run _ _ _ _ Ha Hd).
      rewrite Hexts. reflexivity. }
    assert (forall src, file_allowed src "a.png" w = (inr false, w)) as Hall.
    { intros src. exact Hno. }
    split.
    + unfold save. destruct file_or_wfs; simpl; unfold bind;
        rewrite Hall; reflexivity.
    + unfold save. simpl. unfold bind. rewrite Hall. reflexivity.
Qed.

(** C3.  When [save] fails with the [ValueError] for a missing file name,
    with [UnauthorizedFileType] or with [FileExists], the backend has
    not been changed: the bound instance, and so its content and file
    listing, is the one from before the call, the local file system is
    untouched, and the backend received at most the existence query,
    never a save. *)
Theorem rejected_save_leaves_backend_unchanged
    w w' file_or_wfs (name_arg : option string) prefix overwrite_arg (e : exn) :
  save file_or_wfs name_arg prefix overwrite_arg w = (inl e, w') ->
  rejection e ->
  backend (self w') = backend (self w)
  /\ os w' = os w
  /\ (calls w' = calls w \/ exists path, calls w' = calls w ++ [CExists path])
  /\ (forall source path, CSave source path ∈ calls w' ->
        CSave source path ∈ calls w).
Proof.
  intros Hsave Hrej.
  cut (backend (self w') = backend (self w) /\ os w' = os w
       /\ (calls w' = calls w \/ exists path, calls w' = calls w ++ [CExists path])).
  { intros (Hb & Hos & Hcalls). repeat split; try done.
    intros source path Hin.
    destruct Hcalls as [Hc|[p Hc]]; rewrite Hc in Hin; [done|].
    apply elem_of_app in Hin as [Hin|Hin]; [done|].
    apply list_elem_of_singleton in Hin. discriminate. }
  revert Hsave. unfold save.
  match goal with
  | |- context [if negb (truthy ?f) then raise _ else _] => generalize f
  end.
  intros name0. destruct (truthy name0); simpl.
  2:{ intros [= <- <-]. auto. }
  unfold bind at 1. unfold file_allowed.
  destruct (extension_allowed_frame w (Files.extension name0)) as [Hw Herr].
  destruct (extension_allowed _ w) as [[e0|allowed] w0]; simpl in Hw; subst w0.
  { intros [= <- <-]. auto. }
  destruct allowed; simpl.
  2:{ intros [= <- <-]. auto. }
  unfold bind at 1. unfold get_self.
  match goal with
  | |- context [FileExists (Some ?f)] => generalize f
  end.
  intros name1.
  destruct (negb (default (overwrite (self w)) overwrite_arg)); simpl.
  - unfold bind at 1.
    destruct (backend (self w)) as [b|] eqn:Hb.
    + rewrite (exists_run _ _ _ Hb).
      destruct (b_exists b name1); simpl.
      * intros [= <- <-]. simpl. eauto.
      * unfold_monad. simpl.
        destruct (b_save _ _ _) as [[msg|[]] b']; simpl; intros [= <- <-];
          destruct Hrej as [?|[?|[? ?]]]; discriminate.
    + rewrite (exists_unbound _ _ Hb). intros [= <- <-]. auto.
  - unfold_monad. simpl.
    destruct (backend (self w)) as [b|] eqn:Hb; simpl.
    + destruct (b_save _ _ _) as [[msg|[]] b']; simpl; intros [= <- <-];
        destruct Hrej as [?|[?|[? ?]]]; discriminate.
    + intros [= <- <-]. auto.
Qed.

Lemma plaintext_in_memory data fs :
  from_file (Mem data) fs = false -> plaintext (Mem data) fs = data.
Proof.
  simpl. unfold isfile. intros Hno%bool_decide_eq_false.
  destruct (files fs !! data) eqn:Hl; [|done].
  exfalso. apply Hno. eauto.
Qed.

Lemma write_content_stored w w' b e filename content :
  backend (self w) = Some b ->
  b_encryptor b = Some e ->
  decrypts e ->
  write_content filename content w = (inr tt, w') ->
  exists b' cipher,
    backend (self w') = Some b'
    /\ b_write filename cipher b = (inr tt, b')
    /\ decrypt_entire_file e (content_bytes cipher) = plaintext content (os w).
Proof.
  intros Hb He [Hmem Hfile]. rewrite (write_content_run _ _ _ _ Hb), He.
  destruct (from_file content (os w)) eqn:Hff.
  - destruct (encrypt_file e content (os w)) as [[msg|path] fs1] eqn:Henc.
    { by erewrite write_encrypted_file_not_encrypted by exact Henc. }
    destruct (fs_open path fs1) as [[err|rs] fs2] eqn:Hopen.
    { by erewrite write_encrypted_file_not_opened by eauto. }
    erewrite write_encrypted_file_opened by eauto.
    destruct (Hfile _ _ _ _ Hff Henc) as (cipher & Hcipher & Hdec).
    destruct (fs_open_inv _ _ _ _ Hopen) as (Hfile' & _ & _).
    rewrite Hcipher in Hfile'. injection Hfile' as Hbytes.
    destruct (b_write filename rs b) as [[msg|[]] b'] eqn:Hw; simpl;
      [discriminate|].
    intros [= <-]. exists b', rs. simpl. repeat split; [done|].
    by rewrite <- Hbytes.
  - unfold backend_write, backend_call. rewrite Hb.
    destruct (b_write _ _ b) as [[msg|[]] b'] eqn:Hw; [discriminate|].
    intros [= <-]. eexists b', _. simpl. repeat split; [exact Hw|].
    simpl. rewrite Hmem. destruct content as [data|data]; [|done].
    symmetry. by apply plaintext_in_memory.
Qed.

(** C8.  With an encryptor configured whose decryption inverts its
    encryption, and a backend that returns what it was given to store,
    a [read] following a successful [write] returns the plaintext,
    decrypted by the storage itself, on the in-memory branch and on the
    stream / file branch of [write] alike. *)
Theorem encrypted_write_read_round_trip
    w w' b e filename content overwrite_arg :
  backend (self w) = Some b ->
  b_encryptor b = Some e ->
  decrypts e ->
  @stores_faithfully B _ ->
  write filename content overwrite_arg w = (inr tt, w') ->
  (read filename w').1 = inr (plaintext content (os w)).
Proof.
  intros Hb He Hdec Hstore. unfold write. unfold bind at 1 2. unfold get_self.
  assert (forall w0,
    backend (self w0) = Some b -> os w0 = os w ->
    write_content filename content w0 = (inr tt, w') ->
    (read filename w').1 = inr (plaintext content (os w))) as Htail.
  { intros w0 Hb0 Hos Hrun.
    destruct (write_content_stored _ _ _ _ _ _ Hb0 He Hdec Hrun)
      as (b' & cipher & Hb' & Hw & Hplain).
    destruct (Hstore _ _ _ _ Hw) as (Hex & Hread & Henc).
    unfold read. unfold bind at 1. rewrite (exists_run _ _ _ Hb'), Hex. simpl.
    unfold_monad. simpl.
    destruct (b_read filename b') as [r b2]. simpl in Hread, Henc. subst r.
    simpl. rewrite Henc, He. simpl. by rewrite Hplain, Hos. }
  destruct (negb (overwrite (self w)) && negb overwrite_arg).
  - rewrite (exists_run _ _ _ Hb).
    destruct (b_exists b filename); simpl; [discriminate|].
    by apply Htail.
  - simpl. by apply Htail.
Qed.

(** Once the temporary file has been opened it is removed, whether the
    backend accepts the write or raises. *)
Lemma temp_file_removed_when_opened
    w b e filename content path fs1 read_stream fs2 :
  backend (self w) = Some b ->
  encrypt_file e content (os w) = (inr path, fs1) ->
  fs_open path fs1 = (inr read_stream, fs2) ->
  files (os (write_encrypted_file e filename content w).2) !! path = None.
Proof.
  intros Hb Henc Hopen. erewrite write_encrypted_file_opened by eauto.
  simpl. apply lookup_delete_eq.
Qed.

(** C9, on the code.  With an encryptor configured and a stream or an
    existing file as content, when opening the temporary encrypted file
    raises (here: the process has no file descriptor left), the [finally]
    block raises [UnboundLocalError] at [read_stream.close()] and
    [os.remove] is not reached: [write] exits with the temporary file
    still on disk. *)
Theorem temp_file_left_when_open_raises
    w b e filename content overwrite_arg path fs1 cipher :
  backend (self w) = Some b ->
  b_encryptor b = Some e ->
  negb (overwrite (self w)) && negb overwrite_arg && b_exists b filename = false ->
  from_file content (os w) = true ->
  encrypt_file e content (os w) = (inr path, fs1) ->
  files fs1 !! path = Some cipher ->
  fd_limit fs1 <= open_fds fs1 ->
  exists w',
    write filename content overwrite_arg w
      = (inl (UnboundLocalError "read_stream"), w')
    /\ files (os w') !! path = Some cipher.
Proof.
  intros Hb He Hguard Hff Henc Hfile Hfds.
  assert (fs_open path fs1 = (inl (OSError "EMFILE"), fs1)) as Hopen.
  { unfold fs_open. rewrite Hfile.
    destruct (Nat.ltb_spec (open_fds fs1) (fd_limit fs1)); [lia|done]. }
  assert (forall w0,
    backend (self w0) = Some b -> os w0 = os w ->
    exists w', write_content filename content w0
                 = (inl (UnboundLocalError "read_stream"), w')
               /\ files (os w') !! path = Some cipher) as Htail.
  { intros w0 Hb0 Hos. rewrite (write_content_run _ _ _ _ Hb0), He, Hos, Hff.
    rewrite <- Hos in Henc.
    erewrite write_encrypted_file_not_opened by eauto. eauto. }
  unfold write. unfold bind at 1 2. unfold get_self.
  destruct (negb (overwrite (self w)) && negb overwrite_arg); simpl in *.
  - rewrite (exists_run _ _ _ Hb), Hguard. simpl. by apply Htail.
  - by apply Htail.
Qed.

(** *** Configuration *)

Lemma configure_ok w w' app_config :
  configure DEFAULTS BACKENDS app_config w = (inr tt, w') ->
  exists fallback chosen backend_class b,
    app_get "FS_BACKEND" app_config = Some fallback
    /\ default fallback (app_get (backend_key w) app_config) = PStr chosen
    /\ BACKENDS !! chosen = Some backend_class
    /\ backend (self w') = Some b
    /\ backend_name (self w') = Some (PStr chosen)
    /\ config (self w') =
         effective_config DEFAULTS (PREFIX (PyStr.upper (name (self w))))
           (BACKEND_PREFIX (PyStr.upper chosen)) app_config.
Proof.
  unfold configure, backend_key. unfold_monad. simpl.
  destruct (app_get "FS_BACKEND" app_config) as [fallback|]; simpl; [|discriminate].
  destruct (default fallback _) as [| |chosen|] eqn:Hchosen; simpl; try discriminate.
  destruct (BACKENDS !! chosen) as [backend_class|] eqn:Hclass; simpl;
    [|discriminate].
  destruct (backend_class _ _) as [msg|b]; simpl; [discriminate|].
  intros [= <-]. simpl. by exists fallback, chosen, backend_class, b.
Qed.

(** C2.  After a successful [configure], for an option key that is a
    seeded default ([ALLOW], [DENY], in whatever case): when the key is
    set at storage level ([{STORAGE}_FS_key]) the effective value under
    the lower-cased key is a storage-level value, that of the last
    storage-level key stored under that name, so the key's own value
    when no other storage-level key shares the name; with no
    storage-level key it is in the same way the backend-level value
    ([FS_{BACKEND}_key]); with neither it is the seeded default.  The
    backend-level keys [BACKEND], [URL] and [ROOT] are not selected by
    the backend-level loop under any name, and with no other key stored
    under their name the effective configuration has no entry for them. *)
Theorem configure_precedence w w' app_config :
  configure DEFAULTS BACKENDS app_config w = (inr tt, w') ->
  NoDup app_config.*1 ->
  exists chosen,
    backend_name (self w') = Some (PStr chosen)
    /\ (forall opt seeded,
          set_default_values DEFAULTS ∅ !! PyStr.lower opt = Some seeded ->
          let pfx := PREFIX (PyStr.upper (name (self w))) in
          let backend_prefix := BACKEND_PREFIX (PyStr.upper chosen) in
          let option := PyStr.lower opt in
          let no_storage_level :=
            forall key, key ∈ app_config.*1 -> storage_level pfx option key = false in
          let no_backend_level :=
            forall key, key ∈ app_config.*1 ->
              backend_level backend_prefix option key = false in
          (forall v,
              app_get (pfx +:+ opt) app_config = Some v ->
              exists before key v' after,
                app_config = before ++ (key, v') :: after
                /\ storage_level pfx option key = true
                /\ (forall k, k ∈ after.*1 -> storage_level pfx option k = false)
                /\ config (self w') !! option = Some v'
                /\ ((forall k, k ∈ app_config.*1 ->
                       storage_level pfx option k = true -> k = pfx +:+ opt) ->
                    v' = v))
          /\ (forall v,
              no_storage_level ->
              app_get (backend_prefix +:+ opt) app_config = Some v ->
              exists before key v' after,
                app_config = before ++ (key, v') :: after
                /\ backend_level backend_prefix option key = true
                /\ (forall k, k ∈ after.*1 ->
                      backend_level backend_prefix option k = false)
                /\ config (self w') !! option = Some v'
                /\ ((forall k, k ∈ app_config.*1 ->
                       backend_level backend_prefix option k = true ->
                       k = backend_prefix +:+ opt) ->
                    v' = v))
          /\ (no_storage_level -> no_backend_level ->
              config (self w') !! option = Some seeded))
    /\ (forall identity,
          identity ∈ BACKEND_EXCLUDED_CONFIG ->
          let pfx := PREFIX (PyStr.upper (name (self w))) in
          let backend_prefix := BACKEND_PREFIX (PyStr.upper chosen) in
          (forall option,
              backend_level backend_prefix option (backend_prefix +:+ identity)
              = false)
          /\ ((forall key, key ∈ app_config.*1 ->
                 storage_level pfx (PyStr.lower identity) key = false) ->
              (forall key, key ∈ app_config.*1 ->
                 backend_level backend_prefix (PyStr.lower identity) key = false) ->
              config (self w') !! PyStr.lower identity = None)).
Proof.
  intros (fallback & chosen & backend_class & b & _ & _ & _ & _ & Hname & Hcfg)%configure_ok
         Hdistinct.
  exists chosen. split; [done|]. rewrite Hcfg. split.
  - intros opt seeded Hseeded. cbv zeta.
    set (pfx := PREFIX (PyStr.upper (name (self w)))).
    set (backend_prefix := BACKEND_PREFIX (PyStr.upper chosen)).
    assert (storage_level pfx (PyStr.lower opt) (pfx +:+ opt) = true) as Hstorage.
    { apply storage_level_spec. split; [apply startswith_app|].
      apply option_name_prefix.
      apply (seeded_option_holds_no_prefix _ _ _ _ Hseeded), PREFIX_has_underscore. }
    assert (backend_level backend_prefix (PyStr.lower opt) (backend_prefix +:+ opt)
            = true) as Hbackend.
    { apply backend_level_spec. split.
      - apply other_key_backend_level_key.
        by apply (seeded_option_is_no_identity_key _ _ _ Hseeded).
      - apply option_name_prefix.
        apply (seeded_option_holds_no_prefix _ _ _ _ Hseeded),
          BACKEND_PREFIX_has_underscore. }
    split; [|split].
    + intros v Hget%app_get_elem.
      destruct (last_hit_split (storage_level pfx (PyStr.lower opt)) app_config)
        as (before & key & v' & after & Happ & Hkey & Hafter).
      { exists (pfx +:+ opt). split; [|done].
        apply list_elem_of_fmap. by exists (pfx +:+ opt, v). }
      exists before, key, v', after. split; [done|]. split; [done|].
      split; [done|]. split.
      * rewrite Happ. by apply storage_level_last.
      * intros Honly. assert (key = pfx +:+ opt) as ->.
        { apply Honly; [|done]. rewrite Happ, fmap_app. apply elem_of_app. right.
          apply list_elem_of_here. }
        apply (dict_value_unique app_config (pfx +:+ opt)); [done| |done].
        rewrite Happ. apply elem_of_app. right. apply list_elem_of_here.
    + intros v Hnone Hget%app_get_elem.
      destruct (last_hit_split (backend_level backend_prefix (PyStr.lower opt))
                  app_config)
        as (before & key & v' & after & Happ & Hkey & Hafter).
      { exists (backend_prefix +:+ opt). split; [|done].
        apply list_elem_of_fmap. by exists (backend_prefix +:+ opt, v). }
      exists before, key, v', after. split; [done|]. split; [done|].
      split; [done|]. split.
      * rewrite Happ. apply backend_level_last; [|done..]. by rewrite <- Happ.
      * intros Honly. assert (key = backend_prefix +:+ opt) as ->.
        { apply Honly; [|done]. rewrite Happ, fmap_app. apply elem_of_app. right.
          apply list_elem_of_here. }
        apply (dict_value_unique app_config (backend_prefix +:+ opt)); [done| |done].
        rewrite Happ. apply elem_of_app. right. apply list_elem_of_here.
    + intros Hnone_storage Hnone_backend.
      by rewrite (default_level_remains DEFAULTS _ _ _ _ Hnone_storage Hnone_backend).
  - intros identity Hidentity. cbv zeta.
    split; [intros option; by apply identity_key_not_backend_level|].
    intros Hstorage Hbackend.
    rewrite (default_level_remains DEFAULTS _ _ _ _ Hstorage Hbackend).
    unfold BACKEND_EXCLUDED_CONFIG in Hidentity.
    repeat (apply elem_of_cons in Hidentity as [->|Hidentity]);
      try (by apply default_values_other).
    by apply elem_of_nil in Hidentity.
Qed.

(** C6, as the code has it.  When the backend name resolved from
    [{STORAGE}_FS_BACKEND], falling back to [FS_BACKEND], is not in the
    registry, [configure] raises [ValueError] with the message
    [Unknown backend "name"]; no backend is instantiated or bound, the
    configuration of the storage is not replaced and nothing has been
    asked of a backend, so a storage that had no backend still has none
    and its I/O methods cannot reach one. *)
Theorem configure_unknown_backend w app_config fallback chosen :
  app_get "FS_BACKEND" app_config = Some fallback ->
  default fallback (app_get (backend_key w) app_config) = PStr chosen ->
  BACKENDS !! chosen = None ->
  exists w',
    configure DEFAULTS BACKENDS app_config w = (inl (unknown_backend chosen), w')
    /\ backend (self w') = backend (self w)
    /\ config (self w') = config (self w)
    /\ os w' = os w
    /\ calls w' = calls w
    /\ (backend (self w) = None ->
        forall filename, read filename w' = (inl no_backend, w')).
Proof.
  intros Hfallback Hchosen Hmissing. unfold backend_key in Hchosen.
  eexists. split.
  - unfold configure. unfold_monad. simpl. rewrite Hfallback. simpl.
    rewrite Hchosen. simpl. rewrite Hmissing. reflexivity.
  - simpl. repeat split; try done.
    intros Hb filename. unfold read. unfold bind at 1.
    rewrite exists_unbound; done.
Qed.

Lemma safe_name_report :
  Files.lower_extension (Files.secure_filename "Report.PDF") = "Report.pdf".
Proof. reflexivity. Qed.

(** C7, as the code has it.  Saving a [FileStorage] whose client-declared
    name is "Report.PDF", with no explicit file name and no prefix or
    upload destination, on a storage that allows "pdf" and where the
    target may be written: the safe name keeps the case of the base name
    and lower-cases the extension only, so the backend is asked to save
    under "Report.pdf" and that path is returned. *)
Theorem save_report_pdf w b allow deny data overwrite_arg :
  backend (self w) = Some b ->
  config (self w) !! "allow" = Some (PTuple allow) ->
  config (self w) !! "deny" = Some (PTuple deny) ->
  allowed_by allow (extensions (self w)) deny "pdf" = true ->
  given (upload_to (self w)) = false ->
  default (overwrite (self w)) overwrite_arg = true
    \/ b_exists b "Report.pdf" = false ->
  (b_save (FileStorage "Report.PDF" data) "Report.pdf" b).1 = inr tt ->
  exists w',
    save (FileStorage "Report.PDF" data) None None overwrite_arg w
      = (inr "Report.pdf", w')
    /\ last (calls w') = Some (CSave (FileStorage "Report.PDF" data) "Report.pdf").
Proof.
  intros Hb Ha Hd Hallowed Hupload Hfree Hsave.
  unfold save. cbn [default]. rewrite safe_name_report. simpl.
  unfold bind at 1. unfold file_allowed.
  change (Files.extension "Report.pdf") with "pdf".
  rewrite (extension_allowed_run _ _ _ _ Ha Hd), Hallowed. simpl.
  unfold bind at 1. unfold get_self. rewrite Hupload.
  assert (forall w0, backend (self w0) = Some b -> exists w',
    (backend_call (CSave (FileStorage "Report.PDF" data) "Report.pdf")
       (b_save (FileStorage "Report.PDF" data) "Report.pdf");;;
     ret "Report.pdf") w0 = (inr "Report.pdf", w')
    /\ last (calls w') = Some (CSave (FileStorage "Report.PDF" data) "Report.pdf"))
    as Htail.
  { intros w0 Hb0. unfold_monad. rewrite Hb0.
    destruct (b_save _ _ b) as [r b']. simpl in Hsave. subst r.
    eexists. split; [reflexivity|]. simpl. apply last_snoc. }
  destruct (default (overwrite (self w)) overwrite_arg) eqn:How; simpl.
  - unfold bind at 1. unfold ret at 1. by apply Htail.
  - destruct Hfree as [?|Hfree]; [done|].
    unfold bind at 1. rewrite (exists_run _ _ _ Hb), Hfree. by apply Htail.
Qed.

End Properties.

(** ** The reference backend and encryptor satisfy the laws *)

Section Reference.

Import MemoryBackend.

Lemma flip_involutive c : FlipEncryptor.flip (FlipEncryptor.flip c) = c.
Proof. destruct c as [[] [] [] [] [] [] [] []]; reflexivity. Qed.

Lemma crypt_involutive data : FlipEncryptor.crypt (FlipEncryptor.crypt data) = data.
Proof.
  induction data as [|c data IH]; [done|].
  unfold FlipEncryptor.crypt in *. simpl. by rewrite flip_involutive, IH.
Qed.

Lemma flip_encryptor_decrypts : decrypts FlipEncryptor.encryptor.
Proof.
  split; [apply crypt_involutive|].
  intros content fs path fs' Hfrom. simpl. unfold FlipEncryptor.to_temp_file.
  assert (match content with
          | Mem p => files fs !! p
          | Stream data => Some data
          end = Some (plaintext content fs)) as ->.
  { destruct content as [p|data]; [|done]. simpl in *.
    unfold isfile in Hfrom. apply bool_decide_eq_true in Hfrom as [data ->]. done. }
  intros [= <- <-]. exists (FlipEncryptor.crypt (plaintext content fs)). simpl.
  split; [apply lookup_insert_eq|apply crypt_involutive].
Qed.

Lemma memory_backend_stores_faithfully : @stores_faithfully MemoryBackend.t _.
Proof.
  intros b b' filename content. simpl. unfold put.
  destruct (read_only b); [discriminate|]. intros [= <-]. simpl.
  unfold fetch. simpl. rewrite lookup_insert_eq. done.
Qed.

End Reference.

(** ** The properties on concrete storages *)

Section Concrete.

Import MemoryBackend Examples.

Ltac evaluate := vm_compute; reflexivity.

Ltac each_key :=
  let key := fresh "key" in
  let Hkey := fresh "Hkey" in
  intros key Hkey; cbn in Hkey;
  repeat (apply elem_of_cons in Hkey as [->|Hkey]);
  try (by apply elem_of_nil in Hkey);
  vm_compute; first [reflexivity | discriminate].

Lemma extension_allowed_formula_witness :
  config (self png_denied) !! "allow" = Some (PTuple [])
  /\ config (self png_denied) !! "deny" = Some (PTuple ["png"])
  /\ save (FileObj "bytes") (Some "a.png") None None png_denied
       = (inl UnauthorizedFileType, png_denied)
  /\ save (FileStorage "a.png" "bytes") None None None png_denied
       = (inl UnauthorizedFileType, png_denied).
Proof.
  assert (config (self png_denied) !! "allow" = Some (PTuple [])) as Ha
    by evaluate.
  assert (config (self png_denied) !! "deny" = Some (PTuple ["png"])) as Hd
    by evaluate.
  destruct (extension_allowed_formula png_denied [] ["png"] Ha Hd)
    as [_ Hscenario].
  destruct (Hscenario eq_refl eq_refl eq_refl (FileObj "bytes") None None "bytes")
    as [Hgiven Hclient].
  repeat split; assumption.
Defined.

Lemma rejected_save_leaves_backend_unchanged_witness :
  save (FileObj "bytes") (Some "a.png") None None png_denied
    = (inl UnauthorizedFileType, png_denied)
  /\ rejection UnauthorizedFileType
  /\ forall source path, CSave source path ∈ calls png_denied ->
       CSave source path ∈ calls png_denied.
Proof.
  assert (save (FileObj "bytes") (Some "a.png") None None png_denied
          = (inl UnauthorizedFileType, png_denied)) as Hsave by evaluate.
  assert (rejection UnauthorizedFileType) as Hrej by (right; left; reflexivity).
  destruct (rejected_save_leaves_backend_unchanged _ _ _ _ _ _ _ Hsave Hrej)
    as (_ & _ & _ & Hlog).
  repeat split; assumption.
Defined.

Lemma reads_check_existence_first_witness :
  backend (self documents) = Some (MemoryBackend.mk ∅ None false)
  /\ (read "missing.txt" documents).1 = inl (FileNotFound "missing.txt")
  /\ calls (read "missing.txt" documents).2 = [CExists "missing.txt"].
Proof.
  assert (backend (self documents) = Some (MemoryBackend.mk ∅ None false)) as Hb
    by evaluate.
  destruct (reads_check_existence_first documents _ "missing.txt" Hb)
    as ((Hraises & Hcalls) & _).
  split; [assumption|]. split; [by apply Hraises | by rewrite Hcalls].
Defined.

Lemma serve_aborts_with_404_witness :
  backend (self documents) = Some (MemoryBackend.mk ∅ None false)
  /\ (serve "missing.txt" documents).1 = inl (HTTPException 404)
  /\ calls (serve "missing.txt" documents).2 = [CExists "missing.txt"].
Proof.
  assert (backend (self documents) = Some (MemoryBackend.mk ∅ None false)) as Hb
    by evaluate.
  destruct (serve_aborts_with_404 documents _ "missing.txt" Hb)
    as (Haborts & _ & Hcalls).
  split; [assumption|]. split; [by apply Haborts | by rewrite Hcalls].
Defined.


Lemma encrypted_write_read_round_trip_witness :
  (exists w', write "a.bin" (Stream "secret") false encrypted = (inr tt, w')
              /\ (read "a.bin" w').1 = inr "secret")
  /\ (exists w', write "a.bin" (Mem "secret") false encrypted = (inr tt, w')
                 /\ (read "a.bin" w').1 = inr "secret").
Proof.
  assert (backend (self encrypted)
          = Some (MemoryBackend.mk ∅ (Some FlipEncryptor.encryptor) false)) as Hb
    by evaluate.
  split.
  - exists (write "a.bin" (Stream "secret") false encrypted).2.
    assert (write "a.bin" (Stream "secret") false encrypted
            = (inr tt, (write "a.bin" (Stream "secret") false encrypted).2))
      as Hwrite by evaluate.
    split; [assumption|].
    exact (encrypted_write_read_round_trip _ _ _ _ "a.bin" (Stream "secret") false
             Hb eq_refl flip_encryptor_decrypts memory_backend_stores_faithfully
             Hwrite).
  - exists (write "a.bin" (Mem "secret") false encrypted).2.
    assert (write "a.bin" (Mem "secret") false encrypted
            = (inr tt, (write "a.bin" (Mem "secret") false encrypted).2))
      as Hwrite by evaluate.
    split; [assumption|].
    exact (encrypted_write_read_round_trip _ _ _ _ "a.bin" (Mem "secret") false
             Hb eq_refl flip_encryptor_decrypts memory_backend_stores_faithfully
             Hwrite).
Defined.

Lemma temp_file_left_when_open_raises_witness :
  exists w',
    write "a.bin" (Stream "secret") false exhausted
      = (inl (UnboundLocalError "read_stream"), w')
    /\ files (os w') !! FlipEncryptor.temp_path
         = Some (FlipEncryptor.crypt "secret").
Proof.
  apply (temp_file_left_when_open_raises exhausted
           (MemoryBackend.mk ∅ (Some FlipEncryptor.encryptor) false)
           FlipEncryptor.encryptor "a.bin" (Stream "secret") false
           FlipEncryptor.temp_path
           (FlipEncryptor.to_temp_file (Stream "secret") (os exhausted)).2
           (FlipEncryptor.crypt "secret")).
  - evaluate.
  - reflexivity.
  - reflexivity.
  - reflexivity.
  - reflexivity.
  - evaluate.
  - vm_compute. lia.
Defined.

Lemma configure_precedence_witness :
  config (self layered) !! "allow" = Some (PTuple ["a"])
  /\ config (self layered) !! "deny" = Some (PTuple ["exe"])
  /\ config (self (configured None ["png"] plain_config)) !! "deny"
    = Some (PTuple [])
  /\ config (self layered) !! "url" = None
  /\ (exists before key after,
        clashing_config = before ++ (key, PTuple ["c"]) :: after
        /\ storage_level "FILES_FS_" "allow" key = true
        /\ config (self clashing) !! "allow" = Some (PTuple ["c"])).
Proof.
  assert (forall app_config,
    (configure sample_defaults (registry None) app_config (fresh "files" ["png"])).1
      = inr tt ->
    configure sample_defaults (registry None) app_config (fresh "files" ["png"])
      = (inr tt, configured None ["png"] app_config)) as Hran.
  { intros app_config Hok. unfold configured.
    destruct (configure _ _ _ _) as [r w']. simpl in *. by subst r. }
  assert (forall app_config : list (string * pyval),
            bool_decide (NoDup app_config.*1) = true -> NoDup app_config.*1)
    as Hdistinct.
  { intros app_config Hdec. by apply bool_decide_eq_true in Hdec. }
  assert (set_default_values sample_defaults ∅ !! PyStr.lower "ALLOW"
          = Some (PTuple sample_defaults)) as Hallow by evaluate.
  assert (set_default_values sample_defaults ∅ !! PyStr.lower "DENY"
          = Some (PTuple [])) as Hdeny by evaluate.
  destruct (configure_precedence sample_defaults (registry None) _ _ layered_config
              (Hran layered_config eq_refl) (Hdistinct layered_config eq_refl))
    as (chosen & Hname & Hlevels & Hidentities).
  assert (chosen = "mem") as -> by (vm_compute in Hname; congruence).
  destruct (configure_precedence sample_defaults (registry None) _ _ plain_config
              (Hran plain_config eq_refl) (Hdistinct plain_config eq_refl))
    as (chosen & Hname' & Hlevels' & _).
  assert (chosen = "mem") as -> by (vm_compute in Hname'; congruence).
  destruct (configure_precedence sample_defaults (registry None) _ _ clashing_config
              (Hran clashing_config eq_refl) (Hdistinct clashing_config eq_refl))
    as (chosen & Hname'' & Hlevels'' & _).
  assert (chosen = "mem") as -> by (vm_compute in Hname''; congruence).
  split; [|split; [|split; [|split]]].
  - destruct (Hlevels "ALLOW" _ Hallow) as (Hstorage & _).
    destruct (Hstorage (PTuple ["a"]) eq_refl)
      as (before & key & v' & after & _ & _ & _ & Hcfg & Honly).
    assert (v' = PTuple ["a"]) as -> by (apply Honly; each_key).
    exact Hcfg.
  - destruct (Hlevels "DENY" _ Hdeny) as (_ & Hbackend & _).
    destruct (Hbackend (PTuple ["exe"])) as
      (before & key & v' & after & _ & _ & _ & Hcfg & Honly);
      [each_key | reflexivity |].
    assert (v' = PTuple ["exe"]) as -> by (apply Honly; each_key).
    exact Hcfg.
  - destruct (Hlevels' "DENY" _ Hdeny) as (_ & _ & Hdefault).
    apply Hdefault; each_key.
  - destruct (Hidentities "URL") as (_ & Hidentity).
    { apply elem_of_cons. right. apply elem_of_cons. by left. }
    apply Hidentity; each_key.
  - destruct (Hlevels'' "ALLOW" _ Hallow) as (Hstorage & _).
    destruct (Hstorage (PTuple ["a"]) eq_refl)
      as (before & key & v' & after & Happ & Hkey & _ & Hcfg & _).
    assert (config (self clashing) !! "allow" = Some (PTuple ["c"])) as Hwins
      by evaluate.
    assert (v' = PTuple ["c"]) as ->.
    { change (config (self clashing) !! "allow" = Some v') in Hcfg. congruence. }
    exists before, key, after. split; [exact Happ|]. split; [exact Hkey|exact Hwins].
Defined.

Lemma configure_unknown_backend_witness :
  exists w',
    configure sample_defaults (registry None) unknown_backend_config
      (fresh "files" ["png"]) = (inl (unknown_backend "nowhere"), w')
    /\ backend (self w') = None
    /\ read "a.txt" w' = (inl no_backend, w').
Proof.
  destruct (configure_unknown_backend sample_defaults (registry None)
              (fresh "files" ["png"]) unknown_backend_config
              (PStr "mem") "nowhere" eq_refl eq_refl eq_refl)
    as (w' & Hraised & Hbackend & _ & _ & _ & Hclosed).
  exists w'. split; [assumption|]. split; [assumption|]. by apply Hclosed.
Defined.

(** C6 as stated fails: the exception raised for an unregistered backend
    name is a [ValueError], not a [ConfigurationError]. *)
Lemma configure_unknown_backend_counterexample :
  default (PStr "mem") (app_get "FILES_FS_BACKEND" unknown_backend_config)
    = PStr "nowhere"
  /\ registry None !! "nowhere" = None
  /\ (configure sample_defaults (registry None) unknown_backend_config
        (fresh "files" ["png"])).1
     = inl (ValueError ("Unknown backend " +:+ PyStr.dquote +:+ "nowhere" +:+ PyStr.dquote))
  /\ forall msg,
       (configure sample_defaults (registry None) unknown_backend_config
          (fresh "files" ["png"])).1 <> inl (ConfigurationError msg).
Proof.
  assert ((configure sample_defaults (registry None) unknown_backend_config
             (fresh "files" ["png"])).1
          = inl (ValueError ("Unknown backend " +:+ PyStr.dquote +:+ "nowhere"
                             +:+ PyStr.dquote))) as Hraised by evaluate.
  repeat split; try evaluate; try assumption.
  intros msg. rewrite Hraised. discriminate.
Qed.

Lemma save_report_pdf_witness :
  exists w',
    save report None None None documents = (inr "Report.pdf", w')
    /\ last (calls w') = Some (CSave report "Report.pdf").
Proof.
  apply (save_report_pdf documents (MemoryBackend.mk ∅ None false)
           sample_defaults [] "%PDF-1.7" None).
  - evaluate.
  - evaluate.
  - evaluate.
  - evaluate.
  - reflexivity.
  - right. evaluate.
  - reflexivity.
Defined.

(** C7 as stated fails: the path stored under and returned for
    "Report.PDF" is "Report.pdf", the base name keeping its case. *)
Lemma save_report_pdf_counterexample :
  (save report None None None documents).1 = inr "Report.pdf"
  /\ (save report None None None documents).1 <> inr "report.pdf"
  /\ calls (save report None None None documents).2
       = [CExists "Report.pdf"; CSave report "Report.pdf"].
Proof.
  assert ((save report None None None documents).1 = inr "Report.pdf") as Hpath
    by evaluate.
  split; [assumption|]. split; [|evaluate].
  rewrite Hpath. discriminate.
Qed.

End Concrete.

(** ** Further properties of the configuration resolver and of [save] *)

Section Further.

Context {B : Type} `{Backend B}.
Variable DEFAULTS : list string.
Variable BACKENDS : gmap string (string -> gmap string pyval -> string + B).

Implicit Types (w : World B) (b : B).

(** X1.  The global [FS_BACKEND] key is read before the storage-level key is
    looked up: without it [configure] raises [KeyError], whatever the
    rest of the configuration holds, and the storage is as before. *)
Theorem configure_requires_global_backend w app_config :
  app_get "FS_BACKEND" app_config = None ->
  configure DEFAULTS BACKENDS app_config w = (inl (KeyError "FS_BACKEND"), w).
Proof.
  intros Hmissing. unfold configure. unfold_monad. by rewrite Hmissing.
Qed.

(** The storage a successful [configure] leaves. *)
Lemma configure_success w w' app_config :
  configure DEFAULTS BACKENDS app_config w = (inr tt, w') ->
  exists chosen b,
    self w' =
      set_config
        (effective_config DEFAULTS (PREFIX (PyStr.upper (name (self w))))
           (BACKEND_PREFIX (PyStr.upper chosen)) app_config)
        (set_backend (Some b)
           (set_backend_prefix (BACKEND_PREFIX (PyStr.upper chosen))
              (set_backend_name (PStr chosen) (self w))))
    /\ os w' = os w /\ calls w' = calls w.
Proof.
  unfold configure. unfold_monad. simpl.
  destruct (app_get "FS_BACKEND" app_config) as [fallback|]; simpl; [|discriminate].
  destruct (default fallback _) as [| |chosen|] eqn:Hchosen; simpl; try discriminate.
  destruct (BACKENDS !! chosen) as [backend_class|]; simpl; [|discriminate].
  destruct (backend_class _ _) as [msg|b]; simpl; [discriminate|].
  intros [= <-]. by exists chosen, b.
Qed.

(** X2.  A [configure] that fails, for whatever reason, binds no backend and
    does not replace the configuration of the storage. *)
Theorem failed_configure_keeps_backend_and_config w w' app_config (e : exn) :
  configure DEFAULTS BACKENDS app_config w = (inl e, w') ->
  backend (self w') = backend (self w)
  /\ config (self w') = config (self w)
  /\ extensions (self w') = extensions (self w)
  /\ os w' = os w /\ calls w' = calls w.
Proof.
  unfold configure. unfold_monad. simpl.
  destruct (app_get "FS_BACKEND" app_config) as [fallback|]; simpl;
    [|by intros [= <- <-]].
  destruct (default fallback _) as [| |chosen|]; simpl; try by intros [= <- <-].
  destruct (BACKENDS !! chosen) as [backend_class|]; simpl; [|by intros [= <- <-]].
  destruct (backend_class _ _) as [msg|b]; simpl; [by intros [= <- <-]|discriminate].
Qed.

(** X3.  With no key of the application configuration stored under "allow"
    or "deny", a configured storage accepts exactly the default
    extensions and the ones it declares. *)
Theorem configured_defaults_allow w w' app_config chosen ext :
  configure DEFAULTS BACKENDS app_config w = (inr tt, w') ->
  backend_name (self w') = Some (PStr chosen) ->
  (forall option key, option = "allow" \/ option = "deny" ->
     key ∈ app_config.*1 ->
     storage_level (PREFIX (PyStr.upper (name (self w)))) option key = false
     /\ backend_level (BACKEND_PREFIX (PyStr.upper chosen)) option key = false) ->
  extension_allowed ext w' =
    (inr (bool_decide (ext ∈ DEFAULTS) || bool_decide (ext ∈ extensions (self w))),
     w').
Proof.
  intros Hrun Hname Hnone.
  destruct (configure_success _ _ _ Hrun) as (chosen' & b & Hself & _ & _).
  rewrite Hself in Hname. simpl in Hname. injection Hname as ->.
  assert (forall option, option = "allow" \/ option = "deny" ->
    config (self w') !! option = set_default_values DEFAULTS ∅ !! option) as Hdefault.
  { intros option Hoption. rewrite Hself. simpl.
    apply default_level_remains; intros key Hkey; by apply (Hnone option key). }
  rewrite (extension_allowed_run w' DEFAULTS [] ext).
  - unfold allowed_by. rewrite Hself. simpl.
    by rewrite andb_true_r.
  - rewrite Hdefault by auto. by rewrite default_values_seeded, lookup_insert_ne.
  - rewrite Hdefault by auto. by rewrite default_values_seeded, lookup_insert_eq.
Qed.

(** X4.  [extension_allowed] is monotone in the allow set and antitone in the
    deny set: on a storage with the same declared extensions, a larger
    allow set and a smaller deny set refuse nothing that was accepted. *)
Theorem extension_allowed_monotone w w2 allow allow2 deny deny2 ext :
  config (self w) !! "allow" = Some (PTuple allow) ->
  config (self w) !! "deny" = Some (PTuple deny) ->
  config (self w2) !! "allow" = Some (PTuple allow2) ->
  config (self w2) !! "deny" = Some (PTuple deny2) ->
  extensions (self w2) = extensions (self w) ->
  allow ⊆ allow2 -> deny2 ⊆ deny ->
  extension_allowed ext w = (inr true, w) ->
  extension_allowed ext w2 = (inr true, w2).
Proof.
  intros Ha Hd Ha2 Hd2 Hexts Hallow Hdeny.
  rewrite (extension_allowed_run _ _ _ _ Ha Hd).
  rewrite (extension_allowed_run _ _ _ _ Ha2 Hd2), Hexts.
  intros [= Hallowed]. f_equal. f_equal. unfold allowed_by in *.
  apply orb_true_iff in Hallowed as [Hin|[Hin Hout]%andb_true_iff].
  - apply bool_decide_eq_true in Hin.
    rewrite (bool_decide_eq_true_2 (ext ∈ allow2)); [done|]. by apply Hallow.
  - rewrite Hin. apply negb_true_iff, bool_decide_eq_false in Hout.
    rewrite (bool_decide_eq_false_2 (ext ∈ deny2)); [by rewrite orb_true_r|].
    intros Hin2. by apply Hout, Hdeny.
Qed.

(** X5.  A file name whose extension is refused is rejected by [save] whatever
    the source, the prefix, the overwrite flag and the state of the
    backend, and the rejection leaves the world as it was. *)
Theorem save_refused_extension
    w allow deny file_or_wfs (filename : string) prefix overwrite_arg :
  config (self w) !! "allow" = Some (PTuple allow) ->
  config (self w) !! "deny" = Some (PTuple deny) ->
  truthy filename = true ->
  allowed_by allow (extensions (self w)) deny (Files.extension filename) = false ->
  save file_or_wfs (Some filename) prefix overwrite_arg w
    = (inl UnauthorizedFileType, w).
Proof.
  intros Ha Hd Hname Hrefused. unfold save. cbn [from_option id].
  destruct file_or_wfs; cbv zeta; rewrite ?Hname; cbn [negb]; rewrite ?Hname; cbn [negb];
    unfold bind at 1; unfold file_allowed;
    by rewrite (extension_allowed_run _ _ _ _ Ha Hd), Hrefused.
Qed.

(** X6.  A plain file object saved without a file name, or with the empty
    one, is refused with [ValueError] before anything else happens. *)
Theorem save_requires_filename w data (name_arg : option string) prefix overwrite_arg :
  truthy (default EmptyString name_arg) = false ->
  save (FileObj data) name_arg prefix overwrite_arg w
    = (inl (ValueError "filename is required"), w).
Proof. intros Hempty. unfold save. by rewrite Hempty. Qed.

(** X7.  The run of [save] once the file name is accepted: the file is stored
    under the upload destination, then the prefix, then the name; the
    existence of that path is queried only when overwriting is off, and a
    conflict raises [FileExists] carrying the path; otherwise the backend
    receives one save for that path, whose failure is passed on and whose
    success returns the path.  A per-call overwrite flag, [False]
    included, replaces the flag of the storage. *)
Theorem save_stores_under_resolved_path
    w b allow deny file_or_wfs (filename : string) prefix overwrite_arg :
  backend (self w) = Some b ->
  config (self w) !! "allow" = Some (PTuple allow) ->
  config (self w) !! "deny" = Some (PTuple deny) ->
  truthy filename = true ->
  allowed_by allow (extensions (self w)) deny (Files.extension filename) = true ->
  let target := stored_path (self w) prefix filename in
  let run := save file_or_wfs (Some filename) prefix overwrite_arg w in
  if negb (default (overwrite (self w)) overwrite_arg) && b_exists b target
  then run.1 = inl (FileExists (Some target))
       /\ backend (self run.2) = Some b
       /\ calls run.2 = calls w ++ [CExists target]
  else run.1 = match (b_save file_or_wfs target b).1 with
               | inl msg => inl (BackendError msg)
               | inr _ => inr target
               end
       /\ backend (self run.2) = Some (b_save file_or_wfs target b).2
       /\ calls run.2 =
            calls w
            ++ (if default (overwrite (self w)) overwrite_arg then []
                else [CExists target])
            ++ [CSave file_or_wfs target].
Proof.
  intros Hb Ha Hd Hname Hallowed. simpl.
  assert (save file_or_wfs (Some filename) prefix overwrite_arg w =
    (conflict <- (if negb (default (overwrite (self w)) overwrite_arg)
                  then exists_ (stored_path (self w) prefix filename)
                  else ret false) ;;
     if conflict : bool
     then raise (FileExists (Some (stored_path (self w) prefix filename)))
     else backend_call (CSave file_or_wfs (stored_path (self w) prefix filename))
            (b_save file_or_wfs (stored_path (self w) prefix filename)) ;;;
          ret (stored_path (self w) prefix filename)) w) as ->.
  { unfold save, stored_path, PyStr.join2. cbn [from_option id].
    destruct file_or_wfs; cbv zeta; rewrite ?Hname; cbn [negb];
      rewrite ?Hname; cbn [negb];
      unfold bind at 1; unfold file_allowed;
      rewrite (extension_allowed_run _ _ _ _ Ha Hd), Hallowed; reflexivity. }
  generalize (stored_path (self w) prefix filename). intros target.
  destruct (default (overwrite (self w)) overwrite_arg); simpl.
  - unfold_monad. rewrite Hb.
    destruct (b_save file_or_wfs target b) as [[msg|[]] b']; simpl; done.
  - unfold bind. rewrite !(exists_run _ _ _ Hb).
    destruct (b_exists b target); simpl; [by unfold raise|].
    unfold_monad. simpl.
    destruct (b_save file_or_wfs target b) as [[msg|[]] b']; simpl;
      by rewrite <- app_assoc.
Qed.

End Further.

(** ** Further properties of the I/O methods *)

Section FurtherIO.

Context {B : Type} `{Backend B}.

Implicit Types (w : World B) (b : B) (filename : string).

Lemma backend_write_run w b filename content :
  backend (self w) = Some b ->
  backend_write filename content w =
    (match (b_write filename content b).1 with
     | inl msg => inl (BackendError msg)
     | inr x => inr x
     end,
     mkWorld (set_backend (Some (b_write filename content b).2) (self w)) (os w)
             (calls w ++ [CWrite filename content])).
Proof.
  intros Hb. unfold backend_write, backend_call. rewrite Hb.
  by destruct (b_write filename content b) as [[msg|[]] b'].
Qed.

(** The overwrite guard of [write]: whether the call is refused, and the
    world the rest of [write] runs in. *)
Lemma write_guard w b filename content overwrite_arg :
  backend (self w) = Some b ->
  write filename content overwrite_arg w =
    if negb (overwrite (self w)) && negb overwrite_arg
    then if b_exists b filename
         then (inl (FileExists None),
               mkWorld (set_backend (Some b) (self w)) (os w)
                       (calls w ++ [CExists filename]))
         else write_content filename content
                (mkWorld (set_backend (Some b) (self w)) (os w)
                         (calls w ++ [CExists filename]))
    else write_content filename content w.
Proof.
  intros Hb. unfold write. unfold bind at 1 2. unfold get_self.
  destruct (negb (overwrite (self w)) && negb overwrite_arg); [|done].
  rewrite (exists_run _ _ _ Hb). by destruct (b_exists b filename).
Qed.

(** X8.  Without an encryptor, and for a backend that returns what it was
    given to store, a [read] following a successful [write] returns the
    content byte for byte, for in-memory and for streamed content. *)
Theorem plain_write_read_round_trip w w' b filename content overwrite_arg :
  backend (self w) = Some b ->
  b_encryptor b = None ->
  @stores_faithfully B _ ->
  write filename content overwrite_arg w = (inr tt, w') ->
  (read filename w').1 = inr (content_bytes content).
Proof.
  intros Hb Hplain Hstore. rewrite (write_guard _ _ _ _ _ Hb).
  assert (forall w0,
    backend (self w0) = Some b ->
    write_content filename content w0 = (inr tt, w') ->
    (read filename w').1 = inr (content_bytes content)) as Htail.
  { intros w0 Hb0. rewrite (write_content_run _ _ _ _ Hb0), Hplain.
    rewrite (backend_write_run _ _ _ _ Hb0).
    destruct (b_write filename content b) as [[msg|[]] b'] eqn:Hw; simpl;
      [discriminate|].
    intros [= <-]. destruct (Hstore _ _ _ _ Hw) as (Hex & Hread & Henc).
    unfold read. unfold bind at 1.
    erewrite exists_run by reflexivity. rewrite Hex. simpl.
    unfold_monad. simpl.
    destruct (b_read filename b') as [r b2]. simpl in Hread, Henc. subst r.
    simpl. by rewrite Henc, Hplain. }
  destruct (negb (overwrite (self w)) && negb overwrite_arg); [|by apply Htail].
  destruct (b_exists b filename); [discriminate|]. by apply Htail.
Qed.

(** X9.  A [write] refused with [FileExists] has changed nothing: the backend
    and the local files are as before, nothing was encrypted, and the
    backend received the existence query only. *)
Theorem rejected_write_changes_nothing
    w w' b filename content overwrite_arg path :
  backend (self w) = Some b ->
  write filename content overwrite_arg w = (inl (FileExists path), w') ->
  path = None
  /\ backend (self w') = Some b
  /\ os w' = os w
  /\ calls w' = calls w ++ [CExists filename].
Proof.
  intros Hb. rewrite (write_guard _ _ _ _ _ Hb).
  assert (forall w0, write_content filename content w0 <> (inl (FileExists path), w'))
    as Hnever.
  { intros w0 Heq. apply (write_content_never_file_exists w0 filename content path).
    by rewrite Heq. }
  destruct (negb (overwrite (self w)) && negb overwrite_arg);
    [|by intros ?%Hnever].
  destruct (b_exists b filename); [|by intros ?%Hnever].
  by intros [= <- <-].
Qed.

(** X10.  On the file branch of an encrypted [write], once the temporary file
    is open: the outcome is that of the backend, success or exception,
    and in both cases the stream has been closed (the process holds as
    many descriptors as before it was opened) and the temporary file has
    been removed. *)
Theorem opened_temp_file_is_closed_and_removed
    w b e filename content overwrite_arg path fs1 read_stream fs2 :
  backend (self w) = Some b ->
  b_encryptor b = Some e ->
  negb (overwrite (self w)) && negb overwrite_arg && b_exists b filename = false ->
  from_file content (os w) = true ->
  encrypt_file e content (os w) = (inr path, fs1) ->
  fs_open path fs1 = (inr read_stream, fs2) ->
  let run := write filename content overwrite_arg w in
  run.1 = match (b_write filename read_stream b).1 with
          | inl msg => inl (BackendError msg)
          | inr x => inr x
          end
  /\ backend (self run.2) = Some (b_write filename read_stream b).2
  /\ files (os run.2) !! path = None
  /\ open_fds (os run.2) = open_fds fs1
  /\ (forall other, other <> path ->
        files (os run.2) !! other = files fs1 !! other).
Proof.
  intros Hb He Hguard Hfrom Henc Hopen run. subst run.
  rewrite (write_guard _ _ _ _ _ Hb).
  assert (forall w0,
    backend (self w0) = Some b -> os w0 = os w ->
    write_content filename content w0 =
      (match (b_write filename read_stream b).1 with
       | inl msg => inl (BackendError msg)
       | inr x => inr x
       end,
       mkWorld (set_backend (Some (b_write filename read_stream b).2) (self w0))
               (mkLocalFS (delete path (files fs1)) (open_fds fs1) (fd_limit fs1))
               (calls w0 ++ [CWrite filename read_stream]))) as Htail.
  { intros w0 Hb0 Hos. rewrite (write_content_run _ _ _ _ Hb0), He, Hos, Hfrom.
    rewrite <- Hos in Henc. by erewrite write_encrypted_file_opened by eauto. }
  assert (forall w0,
    backend (self w0) = Some b -> os w0 = os w ->
    (write_content filename content w0).1 =
      match (b_write filename read_stream b).1 with
      | inl msg => inl (BackendError msg)
      | inr x => inr x
      end
    /\ backend (self (write_content filename content w0).2)
       = Some (b_write filename read_stream b).2
    /\ files (os (write_content filename content w0).2) !! path = None
    /\ open_fds (os (write_content filename content w0).2) = open_fds fs1
    /\ (forall other, other <> path ->
          files (os (write_content filename content w0).2) !! other
          = files fs1 !! other)) as Hall.
  { intros w0 Hb0 Hos. rewrite (Htail w0 Hb0 Hos). simpl.
    repeat split; [apply lookup_delete_eq|].
    intros other Hother. by apply lookup_delete_ne. }
  destruct (negb (overwrite (self w)) && negb overwrite_arg); simpl in Hguard.
  - rewrite Hguard. by apply Hall.
  - by apply Hall.
Qed.

(** X11.  When the encryptor fails to produce the temporary file, [write]
    passes its failure on and the backend is not asked to write. *)
Theorem failed_encryption_reaches_no_backend
    w b e filename content overwrite_arg msg fs1 :
  backend (self w) = Some b ->
  b_encryptor b = Some e ->
  negb (overwrite (self w)) && negb overwrite_arg && b_exists b filename = false ->
  from_file content (os w) = true ->
  encrypt_file e content (os w) = (inl msg, fs1) ->
  let run := write filename content overwrite_arg w in
  run.1 = inl (EncryptorError msg)
  /\ backend (self run.2) = Some b
  /\ forall name c, CWrite name c ∈ calls run.2 -> CWrite name c ∈ calls w.
Proof.
  intros Hb He Hguard Hfrom Henc run. subst run.
  rewrite (write_guard _ _ _ _ _ Hb).
  assert (forall w0,
    backend (self w0) = Some b -> os w0 = os w ->
    write_content filename content w0 =
      (inl (EncryptorError msg), mkWorld (self w0) fs1 (calls w0))) as Htail.
  { intros w0 Hb0 Hos. rewrite (write_content_run _ _ _ _ Hb0), He, Hos, Hfrom.
    rewrite <- Hos in Henc. by apply write_encrypted_file_not_encrypted. }
  destruct (negb (overwrite (self w)) && negb overwrite_arg); simpl in Hguard.
  - rewrite Hguard, Htail by done. simpl. split; [done|]. split; [done|].
    intros name c [Hin|Hin]%elem_of_app; [done|].
    apply list_elem_of_singleton in Hin. discriminate.
  - rewrite Htail by done. by simpl.
Qed.

(** X12.  In a mode without "r", [open] asks the backend nothing about the
    existence of the file: the call is delegated as the first and only
    backend call, and [FileNotFound] is not raised by the storage. *)
Theorem open_for_writing_skips_existence_check w b filename mode :
  backend (self w) = Some b ->
  PyStr.contains mode "r" = false ->
  calls (open filename mode w).2 = calls w ++ [COpen filename mode]
  /\ (open filename mode w).1 =
       match (b_open filename mode b).1 with
       | inl msg => inl (BackendError msg)
       | inr stream => inr stream
       end.
Proof.
  intros Hb Hmode. unfold open. rewrite Hmode. unfold_monad. rewrite Hb.
  by destruct (b_open filename mode b) as [[msg|stream] b'].
Qed.

(** X13.  [delete] is delegated without an existence check: the backend
    receives the delete as the only call, and what happens for a missing
    file is what the backend makes of it. *)
Theorem delete_delegates_unchecked w b filename :
  backend (self w) = Some b ->
  calls (delete_ filename w).2 = calls w ++ [CDelete filename]
  /\ backend (self (delete_ filename w).2) = Some (b_delete filename b).2
  /\ (delete_ filename w).1 =
       match (b_delete filename b).1 with
       | inl msg => inl (BackendError msg)
       | inr x => inr x
       end.
Proof.
  intros Hb. unfold delete_, backend_call. rewrite Hb.
  by destruct (b_delete filename b) as [[msg|[]] b'].
Qed.

(** X14.  Before [configure] has bound a backend, every I/O method fails with
    the [AttributeError] of the missing backend and leaves the world
    untouched. *)
Theorem unconfigured_storage_does_no_io w filename :
  backend (self w) = None ->
  exists_ filename w = (inl no_backend, w)
  /\ read filename w = (inl no_backend, w)
  /\ (forall chunk_size, read_chunks filename chunk_size w = (inl no_backend, w))
  /\ (forall mode, open filename mode w = (inl no_backend, w))
  /\ (forall content overwrite_arg,
        write filename content overwrite_arg w = (inl no_backend, w))
  /\ delete_ filename w = (inl no_backend, w)
  /\ serve filename w = (inl no_backend, w)
  /\ (forall dst, copy filename dst w = (inl no_backend, w)).
Proof.
  intros Hb. pose proof (exists_unbound w filename Hb) as Hex.
  repeat split; try done.
  - unfold read, bind. by rewrite Hex.
  - intros chunk_size. unfold read_chunks, bind. by rewrite Hex.
  - intros mode. unfold open. destruct (PyStr.contains mode "r").
    + unfold bind. by rewrite Hex.
    + unfold_monad. by rewrite Hb.
  - intros content overwrite_arg. unfold write. unfold bind at 1 2. unfold get_self.
    destruct (negb (overwrite (self w)) && negb overwrite_arg).
    + by rewrite Hex.
    + simpl. unfold write_content, backend_encryptor, get_backend, bind.
      by rewrite Hb.
  - unfold delete_, backend_call. by rewrite Hb.
  - unfold serve, bind. by rewrite Hex.
  - intros dst. unfold copy, bind. by rewrite Hex.
Qed.

End FurtherIO.

(** ** Properties of URLs and paths *)

Section Strings.

Implicit Types (s t p : string).

Lemma endswith_app s p : endswith (s +:+ p) p = true.
Proof.
  induction s as [|c s IH].
  - destruct p; simpl; [done|]. by rewrite Ascii.eqb_refl, String.eqb_refl.
  - change (String c s +:+ p) with (String c (s +:+ p)).
    cbn [endswith]. rewrite IH. apply orb_true_r.
Qed.

Lemma startswith_app_l s t p :
  PyStr.startswith s p = true -> PyStr.startswith (s +:+ t) p = true.
Proof.
  revert s. induction p as [|a p IH]; intros s; [done|].
  destruct s as [|b s]; simpl; [done|].
  destruct (Ascii.eqb a b); [apply IH|done].
Qed.

Lemma append_assoc s t p : (s +:+ t) +:+ p = s +:+ (t +:+ p).
Proof.
  induction s as [|c s IH]; [done|].
  change (String c ((s +:+ t) +:+ p) = String c (s +:+ (t +:+ p))).
  by rewrite IH.
Qed.

Lemma length_append s t :
  String.length (s +:+ t) = String.length s + String.length t.
Proof.
  induction s as [|c s IH]; [done|].
  change (S (String.length (s +:+ t)) = S (String.length s + String.length t)).
  by rewrite IH.
Qed.

Lemma append_inj_r s t p : s +:+ p = t +:+ p -> s = t.
Proof.
  revert t. induction s as [|c s IH]; intros [|d t] Heq; try done.
  - apply (f_equal String.length) in Heq.
    rewrite !length_append in Heq. simpl in Heq. lia.
  - apply (f_equal String.length) in Heq.
    rewrite !length_append in Heq. simpl in Heq. lia.
  - change (String c (s +:+ p) = String d (t +:+ p)) in Heq.
    injection Heq as -> Heq. f_equal. by apply IH.
Qed.

(** A cleaned URL carries a scheme and ends with a slash. *)
Lemma clean_url_shape is_secure url :
  endswith (_clean_url is_secure url) "/" = true
  /\ (PyStr.startswith (_clean_url is_secure url) "http://" = true
      \/ PyStr.startswith (_clean_url is_secure url) "https://" = true).
Proof.
  unfold _clean_url.
  set (with_scheme :=
         if negb (PyStr.startswith url "http://")
            && negb (PyStr.startswith url "https://")
         then (if is_secure then "https://" else "http://") +:+ url
         else url).
  assert (PyStr.startswith with_scheme "http://" = true
          \/ PyStr.startswith with_scheme "https://" = true) as Hscheme.
  { unfold with_scheme.
    destruct (PyStr.startswith url "http://") eqn:Hhttp; cbn [negb andb];
      [by left|].
    destruct (PyStr.startswith url "https://") eqn:Hhttps; cbn [negb andb];
      [by right|].
    destruct is_secure; [right|left]; apply startswith_app. }
  split.
  - destruct (endswith with_scheme "/") eqn:Hslash; cbn [negb]; [done|].
    apply endswith_app.
  - destruct (endswith with_scheme "/"); cbn [negb]; [done|].
    destruct Hscheme as [Hs|Hs]; [left|right]; by apply startswith_app_l.
Qed.

(** X17.  Whatever the URL and the security of the request, the cleaned URL
    starts with "http://" or "https://" and ends with a slash. *)
Theorem clean_url_has_scheme_and_slash is_secure url :
  endswith (_clean_url is_secure url) "/" = true
  /\ (PyStr.startswith (_clean_url is_secure url) "http://" = true
      \/ PyStr.startswith (_clean_url is_secure url) "https://" = true).
Proof. apply clean_url_shape. Qed.

(** X18.  Cleaning is idempotent, whatever the security of the later request. *)
Theorem clean_url_idempotent is_secure is_secure' url :
  _clean_url is_secure' (_clean_url is_secure url) = _clean_url is_secure url.
Proof.
  destruct (clean_url_shape is_secure url) as [Hslash Hscheme].
  generalize dependent (_clean_url is_secure url). intros cleaned Hslash Hscheme.
  unfold _clean_url.
  assert (negb (PyStr.startswith cleaned "http://")
          && negb (PyStr.startswith cleaned "https://") = false) as ->.
  { destruct Hscheme as [-> | ->]; [done|apply andb_false_r]. }
  by rewrite Hslash.
Qed.

(** [os.path.join] with an absolute second component returns that
    component: the first one is dropped. *)
Lemma os_path_join_absolute a b :
  PyStr.startswith b "/" = true -> os_path_join a b = b.
Proof. intros Habs. unfold os_path_join. by rewrite Habs. Qed.

(** With a relative second component the result starts with the first
    and ends with the second. *)
Lemma os_path_join_relative a b :
  PyStr.startswith b "/" = false ->
  PyStr.startswith (os_path_join a b) a = true
  /\ endswith (os_path_join a b) b = true.
Proof.
  intros Hrel. unfold os_path_join. rewrite Hrel.
  destruct (negb (truthy a) || endswith a "/").
  - split; [apply startswith_app|apply endswith_app].
  - split; [apply startswith_app|].
    rewrite <- append_assoc. apply endswith_app.
Qed.

End Strings.

(** ** Properties of [url], [path], [metadata] and [resolve_conflict] *)

Section FurtherLocations.

Context {B : Type} `{Backend B}.
Variable is_secure : bool.
Variable current_config : list (string * pyval).
Variable url_for : string -> string -> bool -> result string.
Variable urljoin : pyval -> string -> result string.
Variable b_metadata : string -> bop B (gmap string pyval).
Variable class_name : B -> string.

Implicit Types (w : World B) (b : B) (filename : string).

Lemma has_url_run w :
  has_url current_config w =
    (inr (if py_truthy (default PNone (config (self w) !! "url")) then true
          else py_truthy (default PNone (app_get "FS_URL" current_config))), w).
Proof. reflexivity. Qed.

Lemma base_url_frame w : (base_url is_secure current_config url_for urljoin w).2 = w.
Proof.
  unfold base_url, clean_value. unfold_monad. simpl.
  destruct (py_truthy (default PNone (config (self w) !! "url"))).
  - by destruct (default PNone (config (self w) !! "url")).
  - destruct (backend_prefix (self w)) as [bp|]; simpl; [|done].
    destruct (py_truthy _); [|by destruct (url_for _ _ _)].
    by destruct (urljoin _ _).
Qed.

(** [url], [base_url] and [has_url] only read the storage. *)
Lemma url_frame w filename external :
  (url is_secure current_config url_for urljoin filename external w).2 = w.
Proof.
  unfold url. unfold bind at 1. rewrite has_url_run.
  destruct (if py_truthy _ then true else _).
  - unfold bind, ret. pose proof (base_url_frame w) as Hframe.
    destruct (base_url _ _ _ _ w) as [[e|base] w1]; simpl in *; by subst.
  - unfold_monad. by destruct (url_for _ _ _).
Qed.

(** X19.  A leading slash of the file name does not change its URL. *)
Theorem url_ignores_leading_slash w filename external :
  PyStr.startswith filename "/" = false ->
  url is_secure current_config url_for urljoin ("/" +:+ filename) external w
  = url is_secure current_config url_for urljoin filename external w.
Proof.
  intros Hrel. unfold url. rewrite Hrel.
  change ("/" +:+ filename) with (String "/"%char filename).
  reflexivity.
Qed.

(** X20.  A URL configured for the storage wins over everything else: the
    base URL is that URL, cleaned, and the URL of a file is the base URL
    followed by the file name, whatever the application configuration
    and the route builder say. *)
Theorem storage_url_wins w configured_url filename external :
  config (self w) !! "url" = Some (PStr configured_url) ->
  truthy configured_url = true ->
  base_url is_secure current_config url_for urljoin w
    = (inr (_clean_url is_secure configured_url), w)
  /\ url is_secure current_config url_for urljoin filename external w
    = (inr (_clean_url is_secure configured_url +:+ relative filename), w).
Proof.
  intros Hurl Htruthy.
  assert (base_url is_secure current_config url_for urljoin w
          = (inr (_clean_url is_secure configured_url), w)) as Hbase.
  { unfold base_url, clean_value. unfold_monad. simpl.
    rewrite Hurl. simpl. by rewrite Htruthy. }
  split; [done|].
  unfold url. unfold bind at 1. rewrite has_url_run, Hurl. simpl.
  rewrite Htruthy. unfold bind, ret. by rewrite Hbase.
Qed.

(** X21.  A URL set at backend level only ([FS_{BACKEND}_URL], with neither a
    storage URL nor [FS_URL]) is used by [base_url] but not by [url]:
    [has_url] is false, so the URL of a file comes from the route
    builder. *)
Theorem backend_url_is_not_used_for_files
    w bprefix backend_url filename external :
  py_truthy (default PNone (config (self w) !! "url")) = false ->
  py_truthy (default PNone (app_get "FS_URL" current_config)) = false ->
  backend_prefix (self w) = Some bprefix ->
  app_get (bprefix +:+ "URL") current_config = Some backend_url ->
  py_truthy backend_url = true ->
  has_url current_config w = (inr false, w)
  /\ base_url is_secure current_config url_for urljoin w
     = (match urljoin backend_url (name (self w)) with
        | inl e => inl e
        | inr joined => inr (_clean_url is_secure joined)
        end, w)
  /\ url is_secure current_config url_for urljoin filename external w
     = (url_for (name (self w)) (relative filename) external, w).
Proof.
  intros Hnone Hglobal Hprefix Hbackend Htruthy.
  split; [|split].
  - rewrite has_url_run. by rewrite Hnone, Hglobal.
  - unfold base_url. unfold_monad. simpl. rewrite Hnone, Hprefix. simpl.
    rewrite Hbackend. simpl. rewrite Htruthy.
    by destruct (urljoin backend_url (name (self w))).
  - unfold url. unfold bind at 1. rewrite has_url_run, Hnone, Hglobal.
    by unfold_monad.
Qed.

(** X22.  [path] is refused with [OperationNotSupported] exactly when the
    backend has no root, [None] or the empty string; it never calls the
    backend. *)
Theorem path_needs_a_root w b filename :
  backend (self w) = Some b ->
  ((path class_name filename w).1
     = inl (OperationNotSupported
              ("Direct file access is not supported by " +:+ class_name b))
   <-> truthy (default EmptyString (b_root b)) = false)
  /\ (path class_name filename w).2 = w.
Proof.
  intros Hb. unfold path. unfold_monad. rewrite Hb.
  destruct (truthy (default EmptyString (b_root b))); simpl; by split.
Qed.

(** X23.  With a root, the path of a relative file name lies under the root
    and ends with the name; an absolute file name is returned as it is,
    outside the root. *)
Theorem path_joins_root w b root filename :
  backend (self w) = Some b ->
  b_root b = Some root ->
  truthy root = true ->
  exists joined,
    path class_name filename w = (inr joined, w)
    /\ (PyStr.startswith filename "/" = true -> joined = filename)
    /\ (PyStr.startswith filename "/" = false ->
        PyStr.startswith joined root = true /\ endswith joined filename = true).
Proof.
  intros Hb Hroot Htruthy. exists (os_path_join root filename).
  split; [|split].
  - unfold path. unfold_monad. rewrite Hb, Hroot. simpl. by rewrite Htruthy.
  - apply os_path_join_absolute.
  - apply os_path_join_relative.
Qed.

(** X24.  The record [metadata] returns: its "filename" is the base name of
    the file and its "url" the external URL of the file, whatever the
    backend put under these keys; the other fields are those of the
    backend. *)
Theorem metadata_sets_filename_and_url w w' filename record :
  metadata is_secure current_config url_for urljoin b_metadata filename w
    = (inr record, w') ->
  exists b from_backend link,
    backend (self w) = Some b
    /\ (b_metadata filename b).1 = inr from_backend
    /\ record !! "filename" = Some (PStr (Files.basename filename))
    /\ record !! "url" = Some (PStr link)
    /\ url is_secure current_config url_for urljoin filename true w' = (inr link, w')
    /\ forall key, key <> "filename" -> key <> "url" ->
         record !! key = from_backend !! key.
Proof.
  unfold metadata. unfold bind at 1. unfold backend_metadata.
  destruct (backend (self w)) as [b|] eqn:Hb; [|discriminate].
  destruct (b_metadata filename b) as [[msg|from_backend] b'] eqn:Hmeta;
    [discriminate|].
  unfold bind, ret.
  match goal with
  | |- context [url _ _ _ _ _ _ ?w1] =>
      pose proof (url_frame w1 filename true) as Hframe;
      destruct (url is_secure current_config url_for urljoin filename true w1)
        as [[e|link] w2] eqn:Hurl
  end; [discriminate|].
  simpl in Hframe. subst w2. intros [= <- <-].
  exists b, from_backend, link. rewrite Hmeta.
  repeat split; try done.
  - by rewrite lookup_insert_ne, lookup_insert_eq.
  - by rewrite lookup_insert_eq.
  - intros key Hfilename Hlink. by rewrite !lookup_insert_ne.
Qed.

End FurtherLocations.

(** ** Properties of [resolve_conflict] *)

Section Conflicts.

Implicit Types (fs : LocalFS) (target stem ext p s : string).

Lemma rsplit_dot_join s main ext :
  PyStr.rsplit_dot s = Some (main, ext) ->
  main +:+ ext = s /\ PyStr.startswith ext "." = true.
Proof.
  revert main ext. induction s as [|c s IH]; intros main ext; [done|].
  cbn [PyStr.rsplit_dot].
  destruct (PyStr.rsplit_dot s) as [[main' ext']|].
  - intros [= <- <-]. destruct (IH main' ext' eq_refl) as [Hjoin Hdot].
    split; [|done].
    change (String c (main' +:+ ext') = String c s). by rewrite Hjoin.
  - destruct (Ascii.eqb_spec c "."%char) as [->|]; [|done].
    by intros [= <- <-].
Qed.

Lemma split_dir_join p : (SplitExt.split_dir p).1 +:+ (SplitExt.split_dir p).2 = p.
Proof.
  induction p as [|c p IH]; [done|]. cbn [SplitExt.split_dir].
  destruct (PyStr.contains p "/" || Ascii.eqb c "/"%char); [|done].
  destruct (SplitExt.split_dir p) as [dir base]. simpl in *.
  change (String c (dir +:+ base) = String c p). by rewrite IH.
Qed.

Lemma leading_dots_join s :
  (SplitExt.leading_dots s).1 +:+ (SplitExt.leading_dots s).2 = s.
Proof.
  induction s as [|c s IH]; [done|]. cbn [SplitExt.leading_dots].
  destruct (Ascii.eqb c "."%char); [|done].
  destruct (SplitExt.leading_dots s) as [dots rest]. simpl in *.
  change (String c (dots +:+ rest) = String c s). by rewrite IH.
Qed.

(** [splitext] cuts the path in two: the parts concatenate to the path,
    and the extension is empty or starts with a dot. *)
Lemma splitext_join p :
  (SplitExt.splitext p).1 +:+ (SplitExt.splitext p).2 = p
  /\ ((SplitExt.splitext p).2 = EmptyString
      \/ PyStr.startswith (SplitExt.splitext p).2 "." = true).
Proof.
  unfold SplitExt.splitext.
  pose proof (split_dir_join p) as Hdir.
  destruct (SplitExt.split_dir p) as [dir base]. simpl in Hdir.
  pose proof (leading_dots_join base) as Hdots.
  destruct (SplitExt.leading_dots base) as [dots rest]. simpl in Hdots.
  destruct (PyStr.rsplit_dot rest) as [[main ext]|] eqn:Hsplit; simpl.
  - destruct (rsplit_dot_join _ _ _ Hsplit) as [Hjoin Hdot].
    split; [|by right].
    by rewrite !append_assoc, Hjoin, Hdots, Hdir.
  - split; [|by left]. clear. induction p as [|c p IH]; [done|].
    change (String c (p +:+ "") = String c p). by rewrite IH.
Qed.

Lemma numbered_leading_slash stem ext count count' :
  PyStr.startswith (numbered stem ext count) "/"
  = PyStr.startswith (numbered stem ext count') "/".
Proof. unfold numbered. by destruct stem. Qed.

(** Different counts give different candidate paths. *)
Lemma candidate_inj target stem ext :
  Inj (=) (=) (fun count => os_path_join target (numbered stem ext count)).
Proof.
  intros count count' Heq.
  assert (numbered stem ext count = numbered stem ext count') as Hnumbered.
  { revert Heq. unfold os_path_join.
    rewrite (numbered_leading_slash stem ext count count').
    destruct (PyStr.startswith (numbered stem ext count') "/"); [done|].
    destruct (negb (truthy target) || endswith target "/").
    - apply append_inj.
    - intros Heq%append_inj. by apply append_inj in Heq. }
  unfold numbered in Hnumbered.
  apply append_inj in Hnumbered. apply append_inj in Hnumbered.
  apply append_inj_r in Hnumbered. by apply pretty_nat_inj.
Qed.

Lemma loop_exhausted fuel fs target stem ext count :
  resolve_conflict_loop fuel fs target stem ext count = None ->
  forall k, 1 <= k <= fuel ->
    path_exists (os_path_join target (numbered stem ext (count + k))) fs = true.
Proof.
  revert count. induction fuel as [|fuel IH]; intros count Hloop k Hk; [lia|].
  cbn [resolve_conflict_loop] in Hloop.
  destruct (path_exists (os_path_join target (numbered stem ext (S count))) fs)
    eqn:Hexists; [|done].
  destruct (decide (k = 1)) as [->|Hne].
  - by rewrite Nat.add_1_r.
  - replace (count + k) with (S count + (k - 1)) by lia.
    apply IH; [done|lia].
Qed.

Lemma loop_found fuel fs target stem ext count newname :
  resolve_conflict_loop fuel fs target stem ext count = Some newname ->
  exists k,
    1 <= k <= fuel
    /\ newname = numbered stem ext (count + k)
    /\ path_exists (os_path_join target newname) fs = false
    /\ forall j, 1 <= j < k ->
         path_exists (os_path_join target (numbered stem ext (count + j))) fs = true.
Proof.
  revert count. induction fuel as [|fuel IH]; intros count Hloop; [done|].
  cbn [resolve_conflict_loop] in Hloop.
  destruct (path_exists (os_path_join target (numbered stem ext (S count))) fs)
    eqn:Hexists; simpl in Hloop.
  - destruct (IH _ Hloop) as (k & Hk & -> & Hfree & Hbefore).
    exists (S k). split; [lia|]. split; [f_equal; lia|]. split; [done|].
    intros j Hj. destruct (decide (j = 1)) as [->|Hne].
    + by rewrite Nat.add_1_r.
    + replace (count + j) with (S count + (j - 1)) by lia. apply Hbefore. lia.
  - injection Hloop as <-. exists 1. rewrite Nat.add_1_r.
    split; [lia|]. split; [done|]. split; [done|]. intros j Hj. lia.
Qed.

(** As many existing candidates as there are counts need that many
    paths on disk. *)
Lemma existing_candidates_bound fs target stem ext n :
  (forall k, 1 <= k <= n ->
     path_exists (os_path_join target (numbered stem ext k)) fs = true) ->
  n <= size (files fs).
Proof.
  intros Hall.
  set (candidates :=
         (fun count => os_path_join target (numbered stem ext count)) <$> seq 1 n).
  assert (NoDup candidates) as Hnodup.
  { apply (@NoDup_fmap_2 _ _ _ (candidate_inj target stem ext)), NoDup_seq. }
  assert (list_to_set candidates ⊆ dom (files fs)) as Hsub.
  { intros path [k [-> Hk%elem_of_seq]]%elem_of_list_to_set%list_elem_of_fmap.
    apply elem_of_dom. specialize (Hall k). unfold path_exists in Hall.
    apply (bool_decide_eq_true_1 _). apply Hall. lia. }
  apply subseteq_size in Hsub.
  rewrite size_list_to_set, size_dom in Hsub by done.
  unfold candidates in Hsub. by rewrite length_fmap, length_seq in Hsub.
Qed.

(** One-character patterns: [c in s] looks at every character of [s]. *)
Lemma contains_char_cons a s c :
  PyStr.contains (String a s) (String c EmptyString)
  = Ascii.eqb c a || PyStr.contains s (String c EmptyString).
Proof.
  cbn [PyStr.contains]. rewrite startswith_char. done.
Qed.

Lemma contains_char_app s t c :
  PyStr.contains (s +:+ t) (String c EmptyString)
  = PyStr.contains s (String c EmptyString)
    || PyStr.contains t (String c EmptyString).
Proof.
  induction s as [|a s IH]; [done|].
  change (String a s +:+ t) with (String a (s +:+ t)).
  by rewrite !contains_char_cons, IH, orb_assoc.
Qed.

Lemma rsplit_dot_none s :
  PyStr.rsplit_dot s = None <-> PyStr.contains s "." = false.
Proof.
  induction s as [|c s IH]; [done|].
  rewrite contains_char_cons. cbn [PyStr.rsplit_dot].
  rewrite (Ascii.eqb_sym "."%char c).
  destruct (PyStr.rsplit_dot s) as [[main ext]|].
  - split; [done|]. intros [_ Hin]%orb_false_elim.
    by apply IH in Hin.
  - destruct IH as [IH _]. rewrite (IH eq_refl), orb_false_r.
    by destruct (Ascii.eqb c "."%char).
Qed.

(** What [rsplit_dot] finds is the last dot: no dot follows it. *)
Lemma rsplit_dot_last s main ext :
  PyStr.rsplit_dot s = Some (main, ext) ->
  exists e, ext = String "."%char e /\ PyStr.contains e "." = false.
Proof.
  revert main ext. induction s as [|c s IH]; intros main ext; [done|].
  cbn [PyStr.rsplit_dot].
  destruct (PyStr.rsplit_dot s) as [[main' ext']|] eqn:Hs.
  - intros [= <- <-]. by apply (IH main').
  - destruct (Ascii.eqb_spec c "."%char) as [->|]; [|done].
    intros [= <- <-]. exists s. split; [done|]. by apply rsplit_dot_none.
Qed.

Lemma rsplit_dot_app s e :
  PyStr.contains e "." = false ->
  PyStr.rsplit_dot (s +:+ "." +:+ e) = Some (s, "." +:+ e).
Proof.
  intros He. apply rsplit_dot_none in He.
  induction s as [|c s IH].
  - change ("" +:+ "." +:+ e) with (String "."%char e).
    cbn [PyStr.rsplit_dot]. by rewrite He.
  - change (String c s +:+ "." +:+ e) with (String c (s +:+ "." +:+ e)).
    cbn [PyStr.rsplit_dot]. by rewrite IH.
Qed.

Lemma split_dir_base p : PyStr.contains (SplitExt.split_dir p).2 "/" = false.
Proof.
  induction p as [|c p IH]; [done|]. cbn [SplitExt.split_dir].
  destruct (PyStr.contains p "/" || Ascii.eqb c "/"%char) eqn:Hsep.
  - by destruct (SplitExt.split_dir p) as [dir base].
  - cbn [snd]. rewrite contains_char_cons, (Ascii.eqb_sym "/"%char c).
    by rewrite orb_comm.
Qed.

Lemma split_dir_component p :
  PyStr.contains p "/" = false -> SplitExt.split_dir p = (EmptyString, p).
Proof.
  destruct p as [|c p]; [done|].
  rewrite contains_char_cons, (Ascii.eqb_sym "/"%char c), orb_comm.
  cbn [SplitExt.split_dir]. by intros ->.
Qed.

Lemma leading_dots_none s :
  PyStr.startswith s "." = false -> SplitExt.leading_dots s = (EmptyString, s).
Proof.
  destruct s as [|c s]; [done|].
  rewrite startswith_char, (Ascii.eqb_sym "."%char c).
  cbn [SplitExt.leading_dots]. by intros ->.
Qed.

(** The extension [os.path.splitext] returns is empty, or a dot followed
    by text that holds neither a dot nor a separator. *)
Lemma splitext_ext_shape p :
  (SplitExt.splitext p).2 = EmptyString
  \/ exists e, (SplitExt.splitext p).2 = "." +:+ e
       /\ PyStr.contains e "." = false /\ PyStr.contains e "/" = false.
Proof.
  unfold SplitExt.splitext.
  pose proof (split_dir_base p) as Hbase.
  destruct (SplitExt.split_dir p) as [dir base]. cbn [snd] in Hbase.
  pose proof (leading_dots_join base) as Hdots.
  destruct (SplitExt.leading_dots base) as [dots rest]. cbn [fst snd] in Hdots.
  destruct (PyStr.rsplit_dot rest) as [[main ext]|] eqn:Hsplit; [|by left].
  right. destruct (rsplit_dot_last _ _ _ Hsplit) as (e & -> & Hdot).
  destruct (rsplit_dot_join _ _ _ Hsplit) as [Hjoin _].
  exists e. split; [done|]. split; [done|].
  rewrite <- Hdots, <- Hjoin, !contains_char_app, contains_char_cons in Hbase.
  repeat (apply orb_false_elim in Hbase as [? Hbase]). done.
Qed.

(** An ordinary name: a stem that is not hidden and a dot-free extension
    in one path component is split at its last dot. *)
Lemma splitext_ordinary s e :
  s <> EmptyString ->
  PyStr.startswith s "." = false ->
  PyStr.contains s "/" = false ->
  PyStr.contains e "." = false ->
  PyStr.contains e "/" = false ->
  SplitExt.splitext (s +:+ "." +:+ e) = (s, "." +:+ e).
Proof.
  intros Hs Hhidden Hsep Hdot Hsep'. unfold SplitExt.splitext.
  rewrite split_dir_component.
  2:{ change ("." +:+ e) with (String "."%char e).
      by rewrite contains_char_app, contains_char_cons, Hsep, Hsep'. }
  rewrite leading_dots_none by (by destruct s).
  by rewrite rsplit_dot_app.
Qed.

(** X25.  [resolve_conflict] returns: given more turns than there are paths on
    disk, the loop ends with the name carrying the first count, from 1,
    whose path in the target folder does not exist, and nothing is
    changed on disk or in the storage.  The name is the stem that
    [os.path.splitext] gives for the base name, an underscore, the count
    in decimal and the extension of [os.path.splitext]: the two parts
    make up the base name, and the extension is empty or a dot followed
    by text without a dot or a separator.  For an ordinary name
    [s.e], a stem [s] that is not empty, not hidden and without a
    separator and a text [e] without a dot or a separator, the name
    returned is [s_N.e]. *)
Theorem resolve_conflict_returns_first_free
    {B : Type} (w : World B) fuel target basename :
  size (files (os w)) < fuel ->
  exists count,
    resolve_conflict fuel target basename w
    = (inr (Some ((SplitExt.splitext basename).1 +:+ "_" +:+ pretty count
                  +:+ (SplitExt.splitext basename).2)), w)
    /\ 1 <= count <= S (size (files (os w)))
    /\ path_exists
         (os_path_join target
            ((SplitExt.splitext basename).1 +:+ "_" +:+ pretty count
             +:+ (SplitExt.splitext basename).2))
         (os w) = false
    /\ (forall k, 1 <= k < count ->
          path_exists
            (os_path_join target
               ((SplitExt.splitext basename).1 +:+ "_" +:+ pretty k
                +:+ (SplitExt.splitext basename).2))
            (os w) = true)
    /\ (SplitExt.splitext basename).1 +:+ (SplitExt.splitext basename).2 = basename
    /\ ((SplitExt.splitext basename).2 = EmptyString
        \/ exists e, (SplitExt.splitext basename).2 = "." +:+ e
             /\ PyStr.contains e "." = false /\ PyStr.contains e "/" = false)
    /\ (forall s e,
          basename = s +:+ "." +:+ e ->
          s <> EmptyString ->
          PyStr.startswith s "." = false ->
          PyStr.contains s "/" = false ->
          PyStr.contains e "." = false ->
          PyStr.contains e "/" = false ->
          resolve_conflict fuel target basename w
          = (inr (Some (s +:+ "_" +:+ pretty count +:+ "." +:+ e)), w)).
Proof.
  intros Hfuel.
  pose proof (splitext_ext_shape basename) as Hshape.
  destruct (splitext_join basename) as [Hjoin _].
  assert (exists count,
    resolve_conflict fuel target basename w
    = (inr (Some (numbered (SplitExt.splitext basename).1
                    (SplitExt.splitext basename).2 count)), w)
    /\ 1 <= count <= S (size (files (os w)))
    /\ path_exists
         (os_path_join target
            (numbered (SplitExt.splitext basename).1
               (SplitExt.splitext basename).2 count)) (os w) = false
    /\ (forall k, 1 <= k < count ->
          path_exists
            (os_path_join target
               (numbered (SplitExt.splitext basename).1
                  (SplitExt.splitext basename).2 k)) (os w) = true))
    as (count & Hrun & Hcount & Hfree & Hbefore).
  { unfold resolve_conflict.
    destruct (SplitExt.splitext basename) as [stem ext]. cbn [fst snd].
    unfold os_query.
    destruct (resolve_conflict_loop fuel (os w) target stem ext 0)
      as [newname|] eqn:Hloop.
    - destruct (loop_found _ _ _ _ _ _ _ Hloop) as (k & Hk & -> & Hfree & Hbefore).
      exists k. simpl in *. split; [done|].
      split; [|split; [done|exact Hbefore]]. split; [lia|].
      destruct (decide (k <= S (size (files (os w))))) as [|Hlarge]; [done|].
      exfalso.
      assert (S (size (files (os w))) <= size (files (os w))); [|lia].
      apply (existing_candidates_bound _ target stem ext).
      intros j Hj. apply Hbefore. lia.
    - exfalso. assert (fuel <= size (files (os w))); [|lia].
      apply (existing_candidates_bound _ target stem ext).
      apply (loop_exhausted _ _ _ _ _ _ Hloop). }
  exists count. unfold numbered in *.
  split; [exact Hrun|]. split; [exact Hcount|]. split; [exact Hfree|].
  split; [exact Hbefore|]. split; [exact Hjoin|]. split; [exact Hshape|].
  intros s e -> Hs Hhidden Hsep Hdot Hsep'.
  by rewrite Hrun, (splitext_ordinary s e).
Qed.

End Conflicts.

(** ** The further properties on concrete storages *)

Section FurtherConcrete.

Import MemoryBackend Examples Fixtures.

#[local] Existing Instance LocalBackend.capabilities.

Ltac evaluate := vm_compute; reflexivity.

Ltac each_key :=
  let key := fresh "key" in
  let Hkey := fresh "Hkey" in
  intros key Hkey; cbn in Hkey;
  repeat (apply elem_of_cons in Hkey as [->|Hkey]);
  try (by apply elem_of_nil in Hkey);
  vm_compute; first [reflexivity | discriminate | by split].

Lemma configure_requires_global_backend_witness :
  app_get "FILES_FS_BACKEND" storage_backend_only = Some (PStr "mem")
  /\ configure sample_defaults (registry None) storage_backend_only
       (fresh "files" ["png"])
     = (inl (KeyError "FS_BACKEND"), fresh "files" ["png"]).
Proof.
  split; [reflexivity|].
  apply (configure_requires_global_backend sample_defaults (registry None)).
  reflexivity.
Defined.

Lemma failed_configure_keeps_backend_and_config_witness :
  backend (self (configure sample_defaults (registry None) unknown_backend_config
                   (fresh "files" ["png"])).2) = None
  /\ config (self (configure sample_defaults (registry None) unknown_backend_config
                     (fresh "files" ["png"])).2) = ∅.
Proof.
  assert (configure sample_defaults (registry None) unknown_backend_config
            (fresh "files" ["png"])
          = (inl (unknown_backend "nowhere"),
             (configure sample_defaults (registry None) unknown_backend_config
                (fresh "files" ["png"])).2)) as Hfailed by evaluate.
  destruct (failed_configure_keeps_backend_and_config _ _ _ _ _ _ Hfailed)
    as (Hbackend & Hconfig & _).
  split; assumption.
Defined.

Lemma configured_defaults_allow_witness :
  extension_allowed "txt" documents = (inr true, documents)
  /\ extension_allowed "exe" documents = (inr false, documents).
Proof.
  assert (configure sample_defaults (registry None) plain_config (fresh "files" ["pdf"])
          = (inr tt, documents)) as Hrun by evaluate.
  assert (backend_name (self documents) = Some (PStr "mem")) as Hname by evaluate.
  assert (forall option key, option = "allow" \/ option = "deny" ->
            key ∈ plain_config.*1 ->
            storage_level (PREFIX (PyStr.upper (name (self (fresh "files" ["pdf"])))))
              option key = false
            /\ backend_level (BACKEND_PREFIX (PyStr.upper "mem")) option key = false)
    as Hnone.
  { intros option key [-> | ->]; revert key; each_key. }
  split.
  - exact (configured_defaults_allow _ _ _ _ _ _ "txt" Hrun Hname Hnone).
  - exact (configured_defaults_allow _ _ _ _ _ _ "exe" Hrun Hname Hnone).
Defined.

Lemma extension_allowed_monotone_witness :
  extension_allowed "txt" narrow = (inr true, narrow)
  /\ extension_allowed "txt" wide = (inr true, wide).
Proof.
  assert (extension_allowed "txt" narrow = (inr true, narrow)) as Hnarrow by evaluate.
  split; [assumption|].
  apply (extension_allowed_monotone narrow wide ["txt"] ["txt"; "csv"]
           ["exe"; "pdf"] ["exe"] "txt"); try evaluate; try assumption.
  - intros x Hx. apply elem_of_cons. left. by apply list_elem_of_singleton in Hx.
  - intros x Hx. apply elem_of_cons. left. by apply list_elem_of_singleton in Hx.
Defined.

Lemma save_refused_extension_witness :
  save (FileObj "MZ") (Some "setup.exe") (Some (Static "2024")) (Some true) documents
  = (inl UnauthorizedFileType, documents).
Proof.
  apply (save_refused_extension documents sample_defaults []); evaluate.
Defined.

Lemma save_requires_filename_witness :
  save (FileObj "bytes") None None None documents
    = (inl (ValueError "filename is required"), documents)
  /\ save (FileObj "bytes") (Some EmptyString) None None documents
    = (inl (ValueError "filename is required"), documents).
Proof.
  split; apply save_requires_filename; reflexivity.
Defined.

Lemma save_stores_under_resolved_path_witness :
  (save (FileObj "%PDF") (Some "a.pdf") (Some (Static "2024")) None archive).1
    = inr "uploads/2024/a.pdf"
  /\ backend (self (save (FileObj "%PDF") (Some "a.pdf") (Some (Static "2024"))
                      None archive).2)
     = Some (MemoryBackend.mk {[ "uploads/2024/a.pdf" := "%PDF" ]} None false)
  /\ calls (save (FileObj "%PDF") (Some "a.pdf") (Some (Static "2024")) None
              archive).2
     = [CExists "uploads/2024/a.pdf"; CSave (FileObj "%PDF") "uploads/2024/a.pdf"].
Proof.
  assert (backend (self archive) = Some (MemoryBackend.mk ∅ None false)) as Hb
    by evaluate.
  assert (config (self archive) !! "allow" = Some (PTuple sample_defaults)) as Ha
    by evaluate.
  assert (config (self archive) !! "deny" = Some (PTuple [])) as Hd by evaluate.
  pose proof (save_stores_under_resolved_path archive _ _ _ (FileObj "%PDF") "a.pdf"
                (Some (Static "2024")) None Hb Ha Hd eq_refl eq_refl) as Hrun.
  exact Hrun.
Defined.

Lemma plain_write_read_round_trip_witness :
  write "a.txt" (Mem "hello") false documents = (inr tt, stocked)
  /\ (read "a.txt" stocked).1 = inr "hello".
Proof.
  assert (write "a.txt" (Mem "hello") false documents = (inr tt, stocked)) as Hwrite
    by evaluate.
  assert (backend (self documents) = Some (MemoryBackend.mk ∅ None false)) as Hb
    by evaluate.
  split; [assumption|].
  exact (plain_write_read_round_trip _ _ _ "a.txt" (Mem "hello") false Hb eq_refl
           memory_backend_stores_faithfully Hwrite).
Defined.

Lemma rejected_write_changes_nothing_witness :
  write "a.txt" (Mem "again") false stocked
    = (inl (FileExists None), (write "a.txt" (Mem "again") false stocked).2)
  /\ backend (self (write "a.txt" (Mem "again") false stocked).2)
     = Some (MemoryBackend.mk {[ "a.txt" := "hello" ]} None false)
  /\ os (write "a.txt" (Mem "again") false stocked).2 = os stocked.
Proof.
  assert (write "a.txt" (Mem "again") false stocked
          = (inl (FileExists None), (write "a.txt" (Mem "again") false stocked).2))
    as Hrefused by evaluate.
  assert (backend (self stocked)
          = Some (MemoryBackend.mk {[ "a.txt" := "hello" ]} None false)) as Hb
    by evaluate.
  destruct (rejected_write_changes_nothing _ _ _ _ _ _ _ Hb Hrefused)
    as (_ & Hbackend & Hos & _).
  split; [assumption|]. split; assumption.
Defined.

Lemma opened_temp_file_is_closed_and_removed_witness :
  (write "a.bin" (Stream "secret") false encrypted).1 = inr tt
  /\ files (os (write "a.bin" (Stream "secret") false encrypted).2)
       !! FlipEncryptor.temp_path = None
  /\ open_fds (os (write "a.bin" (Stream "secret") false encrypted).2) = 0.
Proof.
  destruct (opened_temp_file_is_closed_and_removed encrypted
              (MemoryBackend.mk ∅ (Some FlipEncryptor.encryptor) false)
              FlipEncryptor.encryptor "a.bin" (Stream "secret") false
              FlipEncryptor.temp_path
              (FlipEncryptor.to_temp_file (Stream "secret") (os encrypted)).2
              (Stream (FlipEncryptor.crypt "secret"))
              (fs_open FlipEncryptor.temp_path
                 (FlipEncryptor.to_temp_file (Stream "secret") (os encrypted)).2).2)
    as (Hresult & _ & Hremoved & Hclosed & _); try evaluate.
  split; [exact Hresult|]. split; [exact Hremoved|exact Hclosed].
Defined.

Lemma failed_encryption_reaches_no_backend_witness :
  (write "a.bin" (Stream "secret") false unencryptable).1
    = inl (EncryptorError "no space left on device")
  /\ backend (self (write "a.bin" (Stream "secret") false unencryptable).2)
     = Some (MemoryBackend.mk ∅ (Some failing_encryptor) false).
Proof.
  destruct (failed_encryption_reaches_no_backend unencryptable
              (MemoryBackend.mk ∅ (Some failing_encryptor) false)
              failing_encryptor "a.bin" (Stream "secret") false
              "no space left on device" (os unencryptable))
    as (Hresult & Hbackend & _); try evaluate.
  split; [exact Hresult|exact Hbackend].
Defined.

Lemma open_for_writing_skips_existence_check_witness :
  calls (open "new.txt" "wb" documents).2 = [COpen "new.txt" "wb"].
Proof.
  assert (backend (self documents) = Some (MemoryBackend.mk ∅ None false)) as Hb
    by evaluate.
  destruct (open_for_writing_skips_existence_check documents _ "new.txt" "wb"
              Hb eq_refl) as [Hcalls _].
  exact Hcalls.
Defined.

Lemma delete_delegates_unchecked_witness :
  calls (delete_ "missing.txt" documents).2 = [CDelete "missing.txt"]
  /\ (delete_ "missing.txt" documents).1 = inr tt.
Proof.
  assert (backend (self documents) = Some (MemoryBackend.mk ∅ None false)) as Hb
    by evaluate.
  destruct (delete_delegates_unchecked documents _ "missing.txt" Hb)
    as (Hcalls & _ & Hresult).
  split; [exact Hcalls|exact Hresult].
Defined.

Lemma unconfigured_storage_does_no_io_witness :
  read "a.txt" (fresh "files" ["png"]) = (inl no_backend, fresh "files" ["png"])
  /\ write "a.txt" (Mem "hello") true (fresh "files" ["png"])
     = (inl no_backend, fresh "files" ["png"]).
Proof.
  destruct (unconfigured_storage_does_no_io (fresh "files" ["png"]) "a.txt" eq_refl)
    as (_ & Hread & _ & _ & Hwrite & _).
  split; [exact Hread|apply Hwrite].
Defined.

Lemma url_ignores_leading_slash_witness :
  url false plain_config route join_url "/a/b.png" true documents
  = url false plain_config route join_url "a/b.png" true documents.
Proof.
  apply (url_ignores_leading_slash false plain_config route join_url documents
           "a/b.png" true).
  reflexivity.
Defined.

Lemma storage_url_wins_witness :
  base_url true storage_url_config route join_url published
    = (inr "https://cdn.example/files/", published)
  /\ url true storage_url_config route join_url "/a.png" false published
    = (inr "https://cdn.example/files/a.png", published).
Proof.
  assert (config (self published) !! "url" = Some (PStr "cdn.example/files")) as Hurl
    by evaluate.
  exact (storage_url_wins true storage_url_config route join_url published
           "cdn.example/files" "/a.png" false Hurl eq_refl).
Defined.

Lemma backend_url_is_not_used_for_files_witness :
  has_url backend_url_config backend_published = (inr false, backend_published)
  /\ base_url false backend_url_config route join_url backend_published
     = (inr "http://cdn.example/files/", backend_published)
  /\ url false backend_url_config route join_url "a.png" true backend_published
     = (inr "http://localhost/fs/files/a.png", backend_published).
Proof.
  assert (py_truthy (default PNone (config (self backend_published) !! "url")) = false)
    as Hnone by evaluate.
  assert (backend_prefix (self backend_published) = Some "FS_MEM_") as Hprefix
    by evaluate.
  exact (backend_url_is_not_used_for_files false backend_url_config route join_url
           backend_published "FS_MEM_" (PStr "http://cdn.example/") "a.png" true
           Hnone eq_refl Hprefix eq_refl eq_refl).
Defined.

Lemma path_needs_a_root_witness :
  (path class_of "a.png" documents).1
  = inl (OperationNotSupported "Direct file access is not supported by MemoryBackend").
Proof.
  assert (backend (self documents) = Some (MemoryBackend.mk ∅ None false)) as Hb
    by evaluate.
  destruct (path_needs_a_root class_of documents _ "a.png" Hb) as [Hrefused _].
  apply Hrefused. reflexivity.
Defined.

Lemma path_joins_root_witness :
  exists joined,
    path class_of_local "/etc/passwd" rooted = (inr joined, rooted)
    /\ joined = "/etc/passwd".
Proof.
  destruct (path_joins_root class_of_local rooted
              (LocalBackend.mk (MemoryBackend.mk ∅ None false) (Some "/srv/uploads"))
              "/srv/uploads" "/etc/passwd")
    as (joined & Hpath & Habsolute & _); try reflexivity.
  exists joined. split; [exact Hpath|]. apply Habsolute. reflexivity.
Defined.

Lemma metadata_sets_filename_and_url_witness :
  exists record,
    (metadata false plain_config route join_url stored_metadata "docs/a.txt"
       nested).1 = inr record
    /\ record !! "filename" = Some (PStr "a.txt")
    /\ record !! "checksum" = Some (PStr "sha1:0").
Proof.
  destruct (metadata false plain_config route join_url stored_metadata "docs/a.txt"
              nested) as [[e|record] w'] eqn:Hrun; [vm_compute in Hrun; discriminate|].
  destruct (metadata_sets_filename_and_url false plain_config route join_url
              stored_metadata _ _ _ _ Hrun)
    as (b & from_backend & link & Hb & Hmeta & Hfilename & _ & _ & Hother).
  exists record. split; [reflexivity|]. split; [exact Hfilename|].
  rewrite Hother by done.
  assert (b = MemoryBackend.mk {[ "docs/a.txt" := "hello" ]} None false) as ->.
  { vm_compute in Hb. by injection Hb as <-. }
  vm_compute in Hmeta. injection Hmeta as <-. evaluate.
Defined.

Lemma resolve_conflict_returns_first_free_witness :
  resolve_conflict 5 "/srv/uploads" "photo.png" crowded
  = (inr (Some "photo_3.png"), crowded).
Proof.
  destruct (resolve_conflict_returns_first_free crowded 5 "/srv/uploads" "photo.png")
    as (count & _ & Hcount & Hfree & Hbefore & _ & _ & Hordinary).
  { vm_compute. lia. }
  rewrite (Hordinary "photo" "png") by (reflexivity || discriminate).
  assert (size (files (os crowded)) = 3) as Hsize by (vm_compute; reflexivity).
  rewrite Hsize in Hcount.
  assert (count = 1 \/ count = 2 \/ count = 3 \/ count = 4)
    as [-> | [-> | [-> | ->]]] by lia.
  - vm_compute in Hfree. discriminate Hfree.
  - vm_compute in Hfree. discriminate Hfree.
  - do 3 f_equal.
  - specialize (Hbefore 3). vm_compute in Hbefore.
    assert (false = true) as Habsurd by (apply Hbefore; lia).
    discriminate Habsurd.
Defined.

End FurtherConcrete.
